(** * The MCP client of [MCP Client/mcp_client.py]

    A shallow embedding of the JSON-RPC client ([MCPClient._make_rpc_call],
    [list_tools], [call_tool]), of the result interpreters
    ([parse_analyst_result], [determine_query_type], [parse_sql_result],
    [parse_agent_result]) and of the routes built on them ([discover_tools],
    [search_documents], [analyze_data], [list_tools], [get_status]),
    followed by the properties the specification states about them and by
    further properties read off the code.

    Conventions of the embedding.
    - A Python value that can come out of [json.loads] is a [pyval].
      Dictionaries are association lists in insertion order, as Python's are.
    - A Python [str] is a [string] with one character per code point; the
      embedding covers the code points below 256 (Latin-1), on which [lower]
      and [strip] follow [str.lower] and [str.strip].
    - Code that can raise returns a [res]: [Ok v] or [Raise e].
    - Logging calls and timing measurements have no effect on any returned
      value or raised exception and are left out.
    - [json.loads], [str] on values and [str] on interpreter-raised
      exceptions belong to the Python runtime, not to the repository; they are
      the fields of the class [Runtime]. *)

From Stdlib Require Import ZArith List String Ascii Bool Lia.
From Stdlib Require Import SpecFloat Decimal DecimalNat DecimalZ DecimalString.
Import ListNotations.
Open Scope string_scope.

Set Implicit Arguments.

(** ** Python values and exceptions *)

#[warnings="-register-all"]
Inductive pyval : Type :=
| PNone
| PBool (b : bool)
| PInt (z : Z)
| PFloat (f : spec_float)
| PStr (s : string)
| PList (l : list pyval)
| PDict (d : list (pyval * pyval)).

Definition pydict := list (pyval * pyval).

(** The exceptions that the modelled code can raise or meet.  [TypeError]
    records the operation that failed and its operand.  [JSONDecodeError] is
    kept apart from the other [ValueError]s, which a clause
    [except json.JSONDecodeError] does not catch. *)
Inductive exn : Type :=
| TypeError (op : string) (v : pyval)
| AttributeError (v : pyval) (attr : string)
| KeyError (k : pyval)
| JSONDecodeError (doc : string)
| ValueError (detail : string)
| RecursionError
| RequestException (detail : string)
| PyException (msg : string).

Inductive res (A : Type) : Type :=
| Ok (a : A)
| Raise (e : exn).

Arguments Ok {A} a.
Arguments Raise {A} e.

Definition bind {A B : Type} (m : res A) (k : A -> res B) : res B :=
  match m with
  | Ok a => k a
  | Raise e => Raise e
  end.

Notation "x <- m ;; k" := (bind m (fun x => k))
  (at level 61, m at next level, right associativity).

(** [try: body except C: handler], where [catches e] tells whether [e] is an
    instance of [C]. *)
Definition try_except {A : Type} (body : res A) (catches : exn -> bool)
    (handler : exn -> res A) : res A :=
  match body with
  | Ok a => Ok a
  | Raise e => if catches e then handler e else Raise e
  end.

(** [except Exception] catches every exception of the model. *)
Definition is_Exception (e : exn) : bool := true.

Definition is_JSONDecodeError (e : exn) : bool :=
  match e with JSONDecodeError _ => true | _ => false end.

Definition is_RequestException (e : exn) : bool :=
  match e with RequestException _ => true | _ => false end.

Fixpoint mapM {A B : Type} (f : A -> res B) (l : list A) : res (list B) :=
  match l with
  | [] => Ok []
  | a :: l' => b <- f a ;; bs <- mapM f l' ;; Ok (b :: bs)
  end.

(** ** Strings *)

Module Str.

Definition code (c : ascii) : nat := nat_of_ascii c.

(** [str.lower] on one code point below 256: A-Z and the Latin-1 capitals
    (192-222 except the multiplication sign 215) move up by 32. *)
Definition lower_char (c : ascii) : ascii :=
  let n := code c in
  if (((65 <=? n) && (n <=? 90)) ||
      ((192 <=? n) && (n <=? 222) && negb (n =? 215)))%nat
  then ascii_of_nat (n + 32) else c.

Fixpoint lower (s : string) : string :=
  match s with
  | EmptyString => EmptyString
  | String c s' => String (lower_char c) (lower s')
  end.

(** [str.isspace] on one code point below 256. *)
Definition is_space (c : ascii) : bool :=
  let n := code c in
  (((9 <=? n) && (n <=? 13)) || ((28 <=? n) && (n <=? 32)) ||
   (n =? 133) || (n =? 160))%nat.

Fixpoint lstrip (s : string) : string :=
  match s with
  | EmptyString => EmptyString
  | String c s' => if is_space c then lstrip s' else s
  end.

(** Removes trailing white space: a character is kept when it is not white
    space or when something is kept after it. *)
Fixpoint rstrip (s : string) : string :=
  match s with
  | EmptyString => EmptyString
  | String c s' =>
      match rstrip s' with
      | EmptyString => if is_space c then EmptyString else String c EmptyString
      | r => String c r
      end
  end.

Definition strip (s : string) : string := rstrip (lstrip s).

(** [s.startswith(p)] *)
Fixpoint startswith (p s : string) : bool :=
  match p with
  | EmptyString => true
  | String a p' =>
      match s with
      | EmptyString => false
      | String b s' => Ascii.eqb a b && startswith p' s'
      end
  end.

(** [s[n:]] *)
Fixpoint drop (n : nat) (s : string) : string :=
  match n, s with
  | O, _ => s
  | S n', String _ s' => drop n' s'
  | S _, EmptyString => EmptyString
  end.

(** [p in s] for strings. *)
Fixpoint contains (p s : string) : bool :=
  startswith p s ||
  match s with
  | EmptyString => false
  | String _ s' => contains p s'
  end.

Definition nonempty (s : string) : bool :=
  match s with EmptyString => false | _ => true end.

(** [str(n)] for integers. *)
Definition of_Z (z : Z) : string := NilZero.string_of_int (Z.to_int z).
Definition of_nat (n : nat) : string := NilZero.string_of_uint (Nat.to_uint n).

End Str.

(** ** Primitive operations on values *)

Module Py.

(** Truth value of an object, as [if x:] and [not x] take it. *)
Definition truthy (v : pyval) : bool :=
  match v with
  | PNone => false
  | PBool b => b
  | PInt z => negb (z =? 0)%Z
  | PFloat (S754_zero _) => false
  | PFloat _ => true
  | PStr s => Str.nonempty s
  | PList l => match l with [] => false | _ => true end
  | PDict d => match d with [] => false | _ => true end
  end.

Definition is_list (v : pyval) : bool :=
  match v with PList _ => true | _ => false end.

Definition is_None (v : pyval) : bool :=
  match v with PNone => true | _ => false end.

(** Whether the float [f] has the integer value [z]. *)
Definition float_eq_Z (f : spec_float) (z : Z) : bool :=
  match f with
  | S754_zero _ => (z =? 0)%Z
  | S754_finite s m e =>
      (if s then (z <? 0)%Z else (0 <? z)%Z) &&
      (if (0 <=? e)%Z then (Z.abs z =? Z.pos m * 2 ^ e)%Z
       else (Z.abs z * 2 ^ (- e) =? Z.pos m)%Z)
  | _ => false
  end.

Definition Z_of_bool (b : bool) : Z := if b then 1%Z else 0%Z.

Definition is_nan (f : spec_float) : bool :=
  match f with S754_nan => true | _ => false end.

(** Whether [a] and [b] are the same key of a dictionary or the same element
    for [in]: numbers compare by value across [bool], [int] and [float];
    strings with strings; [None] with [None].  [json.loads] gives one and the
    same object for every NaN, and an object is found by identity before
    [==] is asked, so NaN meets NaN. *)
Definition eq_scalar (a b : pyval) : bool :=
  match a, b with
  | PNone, PNone => true
  | PStr s, PStr t => String.eqb s t
  | PBool x, PBool y => Bool.eqb x y
  | PBool x, PInt z | PInt z, PBool x => (Z_of_bool x =? z)%Z
  | PInt x, PInt y => (x =? y)%Z
  | PFloat f, PFloat g => SFeqb f g || (is_nan f && is_nan g)
  | PFloat f, PInt z | PInt z, PFloat f => float_eq_Z f z
  | PFloat f, PBool x | PBool x, PFloat f => float_eq_Z f (Z_of_bool x)
  | _, _ => false
  end.

Definition hashable (v : pyval) : bool :=
  match v with PList _ | PDict _ => false | _ => true end.

(** First binding of a key equal to [k]. *)
Fixpoint dict_find (k : pyval) (d : pydict) : option pyval :=
  match d with
  | [] => None
  | (k', v) :: d' => if eq_scalar k k' then Some v else dict_find k d'
  end.

(** Lookup by a string key. *)
Definition dict_get (k : string) (d : pydict) : option pyval :=
  dict_find (PStr k) d.

Definition dict_has (k : string) (d : pydict) : bool :=
  match dict_get k d with Some _ => true | None => false end.

(** The association list after [d[k] = v] for a hashable [k]: an
    existing key keeps its place, a new one goes last. *)
Fixpoint dict_put (k v : pyval) (d : pydict) : pydict :=
  match d with
  | [] => [(k, v)]
  | (k', v') :: d' =>
      if eq_scalar k k' then (k', v) :: d' else (k', v') :: dict_put k v d'
  end.

(** [d[k] = v] *)
Definition setitem (d : pydict) (k v : pyval) : res pydict :=
  if hashable k then Ok (dict_put k v d) else Raise (TypeError "hash" k).

(** [key in x] for a string [key]: key membership in a dictionary, element
    membership in a list, substring test in a string; other operands are
    not containers. *)
Definition contains (key : string) (x : pyval) : res bool :=
  match x with
  | PDict d => Ok (dict_has key d)
  | PList l => Ok (existsb (eq_scalar (PStr key)) l)
  | PStr s => Ok (Str.contains key s)
  | _ => Raise (TypeError "in" x)
  end.

(** [x[key]] for a string [key]. *)
Definition getitem (x : pyval) (key : string) : res pyval :=
  match x with
  | PDict d =>
      match dict_get key d with
      | Some v => Ok v
      | None => Raise (KeyError (PStr key))
      end
  | _ => Raise (TypeError "getitem" x)
  end.

(** [x.get(key, default)] *)
Definition get_default (x : pyval) (key : string) (default : pyval) : res pyval :=
  match x with
  | PDict d =>
      match dict_get key d with
      | Some v => Ok v
      | None => Ok default
      end
  | _ => Raise (AttributeError x "get")
  end.

(** [x.get(key)] *)
Definition get (x : pyval) (key : string) : res pyval := get_default x key PNone.

(** The values a [for] loop over [x] visits. *)
Definition iter (x : pyval) : res (list pyval) :=
  match x with
  | PList l => Ok l
  | PDict d => Ok (map fst d)
  | PStr s => Ok (map (fun c => PStr (String c EmptyString)) (list_ascii_of_string s))
  | _ => Raise (TypeError "iter" x)
  end.

(** [x == s] for a string constant [s]. *)
Definition eq_str (x : pyval) (s : string) : bool := eq_scalar x (PStr s).

(** [x.strip()] *)
Definition strip (x : pyval) : res string :=
  match x with
  | PStr s => Ok (Str.strip s)
  | _ => Raise (AttributeError x "strip")
  end.

(** [x + s] for a string [s]. *)
Definition add_str (x : pyval) (s : string) : res string :=
  match x with
  | PStr t => Ok (t ++ s)
  | _ => Raise (TypeError "add" x)
  end.

(** [x or default] *)
Definition or_else (x default : pyval) : pyval := if truthy x then x else default.

End Py.

(** ** The Python runtime *)

Class Runtime : Type := {
  (** [json.loads] on a string: the value, or the exception raised, which
      is a [JSONDecodeError] for text that is not JSON and can be another
      one ([ValueError] for an integer of too many digits,
      [RecursionError] for too deep a nesting). *)
  json_loads : string -> res pyval;
  (** [str(v)] *)
  py_str : pyval -> string;
  (** [str(e)] for an exception raised by the interpreter or a library. *)
  exn_text : exn -> string
}.

(** ** Control flow *)

(** What one pass through a loop body asks for: go on, or [break]. *)
Inductive flow (S : Type) : Type :=
| Next (s : S)
| Break (s : S).

Arguments Next {S} s.
Arguments Break {S} s.

(** [for item in items: body], threading the variables the body assigns. *)
Fixpoint for_each {S : Type} (body : S -> pyval -> res (flow S))
    (items : list pyval) (s : S) : res S :=
  match items with
  | [] => Ok s
  | item :: rest =>
      f <- body s item ;;
      match f with
      | Next s' => for_each body rest s'
      | Break s' => Ok s'
      end
  end.

(** ** determine_query_type *)

Definition determine_query_type (sql : string) : string :=
  let sql_lower := Str.lower sql in
  if Str.contains "count(" sql_lower && Str.contains "group by" sql_lower
  then "aggregation"
  else if Str.contains "select distinct" sql_lower then "distinct"
  else if Str.contains "count(" sql_lower then "count"
  else "select".

(** ** The result interpreters *)

(** Column metadata, the dictionary [{'columns': ..., 'num_rows': ...}]. *)
Record metadata : Type := {
  columns : list pyval;
  num_rows : pyval
}.

Definition metadata_value (m : option metadata) : pyval :=
  match m with
  | None => PNone
  | Some m => PDict [(PStr "columns", PList (columns m)); (PStr "num_rows", num_rows m)]
  end.

Definition newline : string := String (ascii_of_nat 10) EmptyString.

Section Interpreters.

Context {rt : Runtime}.

(** [json.loads(v)] *)
Definition loads (v : pyval) : res pyval :=
  match v with
  | PStr s => json_loads s
  | _ => Raise (TypeError "json.loads" v)
  end.

(** [str(e)] *)
Definition str_exn (e : exn) : string :=
  match e with
  | PyException msg => msg
  | _ => exn_text e
  end.

(** The list under ['content'], when
    ['content' in result and isinstance(result['content'], list)]. *)
Definition content_items (result : pyval) : res (option (list pyval)) :=
  has <- Py.contains "content" result ;;
  if has then
    content <- Py.getitem result "content" ;;
    match content with
    | PList items => Ok (Some items)
    | _ => Ok None
    end
  else Ok None.

(** [item.get('type') == 'text' and 'text' in item] *)
Definition is_text_item (item : pyval) : res bool :=
  ty <- Py.get item "type" ;;
  if Py.eq_str ty "text" then Py.contains "text" item else Ok false.

(** Body of the loop of [parse_analyst_result]; the loop variable is
    [sql_statement]. *)
Definition analyst_item (sql_statement item : pyval) : res (flow pyval) :=
  textual <- is_text_item item ;;
  if textual then
    text_content <- Py.getitem item "text" ;;
    try_except
      (parsed_json <- loads text_content ;;
       has <- Py.contains "statement" parsed_json ;;
       if has then
         statement <- Py.getitem parsed_json "statement" ;;
         Ok (Break statement)
       else Ok (Next sql_statement))
      is_JSONDecodeError
      (fun _ => Ok (Next text_content))
  else Ok (Next sql_statement).

(** Lines 288-301: the statement found in the result, [None] when there is
    none. *)
Definition extract_statement (result : pyval) : res pyval :=
  items <- content_items result ;;
  match items with
  | Some items => for_each analyst_item items PNone
  | None => Ok PNone
  end.

(** Lines 287-322: the [try] block of [parse_analyst_result]. *)
Definition analyst_body (result : pyval) (query : string) : res pyval :=
  sql_statement <- extract_statement result ;;
  if negb (Py.truthy sql_statement) then
    Ok (PDict [
      (PStr "type", PStr "analysis");
      (PStr "sql_query", PNone);
      (PStr "explanation", PStr ("Generated analysis for: " ++ query));
      (PStr "executed", PBool false);
      (PStr "error", PStr "No SQL statement found in response")])
  else
    sql_statement <- Py.strip sql_statement ;;
    Ok (PDict [
      (PStr "type", PStr "analysis");
      (PStr "sql_query", PStr sql_statement);
      (PStr "explanation",
       PStr ("SQL analysis generated by Snowflake Cortex Analyst for: " ++ query));
      (PStr "executed", PBool false);
      (PStr "execution_note",
       PStr "SQL generated by Cortex Analyst. Execute in Snowflake to get results.");
      (PStr "query_type", PStr (determine_query_type sql_statement))]).

Definition parse_analyst_result (result : pyval) (query : string) : res pyval :=
  try_except
    (analyst_body result query)
    is_Exception
    (fun e =>
       Ok (PDict [
         (PStr "type", PStr "analysis");
         (PStr "sql_query", PStr (py_str result));
         (PStr "explanation", PStr ("Analysis for: " ++ query));
         (PStr "executed", PBool false);
         (PStr "error", PStr (str_exn e))])).

(** Lines 366-370: the metadata after looking at [result_set]. *)
Definition read_metadata (result_set : pyval) (result_metadata : option metadata)
    : res (option metadata) :=
  has_md <- Py.contains "resultSetMetaData" result_set ;;
  has_rt <- (if has_md then
               md <- Py.getitem result_set "resultSetMetaData" ;;
               Py.contains "rowType" md
             else Ok false) ;;
  if has_rt then
    md <- Py.getitem result_set "resultSetMetaData" ;;
    row_type <- Py.getitem md "rowType" ;;
    cols <- Py.iter row_type ;;
    names <- mapM (fun col => Py.getitem col "name") cols ;;
    md' <- Py.getitem result_set "resultSetMetaData" ;;
    n <- Py.get_default md' "numRows" (PInt 0) ;;
    Ok (Some {| columns := names; num_rows := n |})
  else Ok result_metadata.

(** Lines 378-380: [row_dict] after the columns from position [i] on have
    been assigned. *)
Fixpoint fill_row (cols : list pyval) (row : list pyval) (i : nat)
    (row_dict : pydict) : res pydict :=
  match cols with
  | [] => Ok row_dict
  | col_name :: cols' =>
      let cell := if (i <? List.length row)%nat then nth i row PNone else PNone in
      d <- Py.setitem row_dict col_name cell ;;
      fill_row cols' row (S i) d
  end.

(** Lines 376-381: the rows of [data] under the column names. *)
Fixpoint named_rows (cols : list pyval) (data : list pyval)
    (execution_results : list pyval) : res (list pyval) :=
  match data with
  | [] => Ok execution_results
  | row :: rest =>
      match row with
      | PList cells =>
          if (List.length cells =? List.length cols)%nat then
            row_dict <- fill_row cols cells 0 [] ;;
            named_rows cols rest (execution_results ++ [PDict row_dict])%list
          else named_rows cols rest execution_results
      | _ => named_rows cols rest execution_results
      end
  end.

(** Line 386: [{f'column_{j}': val for j, val in enumerate(row)}], from
    position [j] on. *)
Fixpoint generic_row (cells : list pyval) (j : nat) (row_dict : pydict) : pydict :=
  match cells with
  | [] => row_dict
  | val :: cells' =>
      generic_row cells' (S j)
        (Py.dict_put (PStr ("column_" ++ Str.of_nat j)) val row_dict)
  end.

(** Lines 384-387. *)
Fixpoint generic_rows (data : list pyval) (execution_results : list pyval)
    : list pyval :=
  match data with
  | [] => execution_results
  | row :: rest =>
      match row with
      | PList cells =>
          generic_rows rest (execution_results ++ [PDict (generic_row cells 0 [])])%list
      | _ => generic_rows rest execution_results
      end
  end.

(** The variables the loop of [parse_sql_result] assigns. *)
Definition sql_state : Type := list pyval * option metadata.

(** Lines 362-390, once [json.loads] has given [snowflake_response]. *)
Definition sql_response (st : sql_state) (snowflake_response : pyval) : res sql_state :=
  let '(execution_results, result_metadata) := st in
  has_rs <- Py.contains "result_set" snowflake_response ;;
  if has_rs then
    result_set <- Py.getitem snowflake_response "result_set" ;;
    result_metadata <- read_metadata result_set result_metadata ;;
    has_data <- Py.contains "data" result_set ;;
    data <- (if has_data then
               d <- Py.getitem result_set "data" ;;
               match d with
               | PList rows => Ok (Some rows)
               | _ => Ok None
               end
             else Ok None) ;;
    match data with
    | Some rows =>
        match result_metadata with
        | Some m =>
            match columns m with
            | _ :: _ =>
                execution_results <- named_rows (columns m) rows execution_results ;;
                Ok (execution_results, result_metadata)
            | [] => Ok (generic_rows rows execution_results, result_metadata)
            end
        | None => Ok (generic_rows rows execution_results, result_metadata)
        end
    | None => Ok (execution_results, result_metadata)
    end
  else Ok ((execution_results ++ [snowflake_response])%list, result_metadata).

(** Body of the loop of [parse_sql_result]. *)
Definition sql_item (st : sql_state) (item : pyval) : res (flow sql_state) :=
  textual <- is_text_item item ;;
  if textual then
    text_content <- Py.getitem item "text" ;;
    st' <- try_except
             (snowflake_response <- loads text_content ;;
              sql_response st snowflake_response)
             is_JSONDecodeError
             (fun _ => Ok ((fst st ++ [PDict [(PStr "result", text_content)]])%list, snd st)) ;;
    Ok (Next st')
  else Ok (Next st).

(** Lines 350-395: the loop of [parse_sql_result]. *)
Definition sql_scan (result : pyval) : res sql_state :=
  items <- content_items result ;;
  match items with
  | Some items => for_each sql_item items ([], None)
  | None => Ok ([], None)
  end.

(** Lines 349-404: the [try] block of [parse_sql_result]. *)
Definition sql_body (result : pyval) (sql_query : string) : res pyval :=
  st <- sql_scan result ;;
  let '(execution_results, result_metadata) := st in
  Ok (PDict [
    (PStr "type", PStr "sql_execution");
    (PStr "sql_query", PStr sql_query);
    (PStr "executed", PBool true);
    (PStr "execution_results", PList execution_results);
    (PStr "result_metadata", metadata_value result_metadata);
    (PStr "row_count",
     PInt (if Py.truthy (PList execution_results)
           then Z.of_nat (List.length execution_results) else 0%Z));
    (PStr "execution_note",
     PStr "SQL executed successfully via Snowflake MCP server.")]).

Definition parse_sql_result (result : pyval) (sql_query : string) : res pyval :=
  try_except
    (sql_body result sql_query)
    is_Exception
    (fun e =>
       Ok (PDict [
         (PStr "type", PStr "sql_execution");
         (PStr "sql_query", PStr sql_query);
         (PStr "executed", PBool false);
         (PStr "error", PStr (str_exn e));
         (PStr "execution_results", PList [])])).

(** Body of the loop of [parse_agent_result]; the loop variable is
    [agent_response]. *)
Definition agent_item (agent_response : string) (item : pyval) : res (flow string) :=
  textual <- is_text_item item ;;
  if textual then
    t <- Py.getitem item "text" ;;
    piece <- Py.add_str t newline ;;
    Ok (Next (agent_response ++ piece))
  else Ok (Next agent_response).

(** Lines 419-434: the [try] block of [parse_agent_result]. *)
Definition agent_body (result : pyval) (message : string) : res pyval :=
  items <- content_items result ;;
  agent_response <- match items with
                    | Some items => for_each agent_item items ""
                    | None => Ok ""
                    end ;;
  let agent_response :=
    if negb (Str.nonempty agent_response) then py_str result else agent_response in
  Ok (PDict [
    (PStr "type", PStr "agent_response");
    (PStr "message", PStr message);
    (PStr "response", PStr (Str.strip agent_response));
    (PStr "execution_note", PStr "Response generated by SEC Filing Agent.")]).

Definition parse_agent_result (result : pyval) (message : string) : res pyval :=
  try_except
    (agent_body result message)
    is_Exception
    (fun e =>
       Ok (PDict [
         (PStr "type", PStr "agent_response");
         (PStr "message", PStr message);
         (PStr "response", PStr ("Error processing agent response: " ++ str_exn e));
         (PStr "error", PStr (str_exn e))])).

End Interpreters.

(** ** The JSON-RPC client *)

(** What iterating over the body of a response yields: the lines read, and
    the exception that ended the reading when the body could not be read to
    its end. *)
Record stream : Type := {
  yielded : list string;
  broken : option exn
}.

(** What the code looks at in a [requests.Response].  The request is posted
    with [stream=True] (line 140), so the body is read when the code asks
    for it, and each way of reading it can raise. *)
Record response : Type := {
  status_code : Z;
  (** [response.headers.get('Content-Type', '')] *)
  content_type : string;
  (** [response.iter_lines(decode_unicode=True)] *)
  iter_lines : stream;
  (** [response.text] *)
  text : res string;
  (** [response.json()]; when the body is not JSON it raises a
      [requests.RequestException] *)
  json : res pyval
}.

Section Client.

Context {rt : Runtime}.

(** [self.session.post(self.base_url, json=payload, ...)]: the server and the
    network path to it. *)
Variable session_post : pyval -> res response.

(** Body of the loop over the lines of an event stream (lines 218-233); the
    loop variable is [result]. *)
Definition sse_line (result : pyval) (line : string) : res pyval :=
  if Str.nonempty line then
    let line := Str.strip line in
    if Str.startswith "data: " line then
      let json_data := Str.drop (String.length "data: ") line in
      try_except (json_loads json_data) is_JSONDecodeError (fun _ => Ok result)
    else Ok result
  else Ok result.

(** Lines 218-233: the loop over the lines that could be read. *)
Fixpoint read_lines (lines : list string) (result : pyval) : res pyval :=
  match lines with
  | [] => Ok result
  | line :: rest =>
      result <- sse_line result line ;;
      read_lines rest result
  end.

(** Lines 215-240. *)
Definition read_event_stream (body : stream) : res pyval :=
  result <- read_lines (yielded body) PNone ;;
  match broken body with
  | Some e => Raise e
  | None =>
      if Py.is_None result
      then Raise (PyException "No valid JSON data found in SSE stream")
      else Ok result
  end.

(** Lines 251-262. *)
Definition unwrap (result : pyval) : res pyval :=
  has_result <- Py.contains "result" result ;;
  if has_result then Py.getitem result "result"
  else
    has_error <- Py.contains "error" result ;;
    if has_error then
      err <- Py.getitem result "error" ;;
      Raise (PyException ("MCP Error: " ++ py_str err))
    else Raise (PyException "Unexpected response format").

(** Lines 203-265: what is done with a response. *)
Definition handle_response (resp : response) : res pyval :=
  if (status_code resp =? 200)%Z then
    result <- (if Str.contains "text/event-stream" (content_type resp)
               then read_event_stream (iter_lines resp)
               else json resp) ;;
    unwrap result
  else
    body <- text resp ;;
    Raise (PyException
      ("HTTP " ++ Str.of_Z (status_code resp) ++ ": " ++ body)).

Definition rpc_payload (method : string) (params : pyval) : pyval :=
  PDict [
    (PStr "jsonrpc", PStr "2.0");
    (PStr "id", PInt 12345);
    (PStr "method", PStr method);
    (PStr "params", Py.or_else params (PDict []))].

Definition _make_rpc_call (method : string) (params : pyval) : res pyval :=
  let payload := rpc_payload method params in
  try_except
    (resp <- session_post payload ;;
     handle_response resp)
    is_RequestException
    (fun e => Raise (PyException ("Request failed: " ++ str_exn e))).

Definition list_tools : res pyval :=
  result <- _make_rpc_call "tools/list" PNone ;;
  Py.get_default result "tools" (PList []).

(** The routes hand over the module-level tool names, which are [None]
    until a discovery has bound them, so the name is any value. *)
Definition call_tool (tool_name : pyval) (arguments : pyval) : res pyval :=
  let params := PDict [(PStr "name", tool_name); (PStr "arguments", arguments)] in
  _make_rpc_call "tools/call" params.

End Client.

(** ** Vocabulary of the specification *)

(** A JSON object with the given members. *)
Definition obj (members : list (string * pyval)) : pyval :=
  PDict (map (fun kv => (PStr (fst kv), snd kv)) members).

(** A content item [{'type': 'text', 'text': t}]. *)
Definition text_item (t : string) : pyval :=
  obj [("type", PStr "text"); ("text", PStr t)].

(** A tool result whose content is the given list of items. *)
Definition tool_result (items : list pyval) : pyval :=
  obj [("content", PList items)].

(** [p] occurs in [s]. *)
Definition substring_of (p s : string) : Prop :=
  exists a b, s = a ++ p ++ b.

(** The character [c] stands for the character [k] of a keyword written in
    lower case: it is [k], or [k] is one of a-z and [c] is its capital. *)
Definition matches_letter (c k : ascii) : Prop :=
  c = k \/
  ((97 <= Str.code k)%nat /\ (Str.code k <= 122)%nat /\
   (Str.code c + 32 = Str.code k)%nat).

(** [w] is [keyword] up to the case of its letters. *)
Fixpoint variant_of (w keyword : string) : Prop :=
  match w, keyword with
  | EmptyString, EmptyString => True
  | String c w', String k keyword' => matches_letter c k /\ variant_of w' keyword'
  | _, _ => False
  end.

(** [keyword] occurs in [s] in some mix of upper and lower case. *)
Definition occurs_ignoring_case (keyword s : string) : Prop :=
  exists a w b, s = a ++ w ++ b /\ variant_of w keyword.

(** The characters of the keywords [determine_query_type] looks for:
    letters a-z, the blank and the opening parenthesis. *)
Definition keyword_char (k : ascii) : Prop :=
  ((97 <= Str.code k)%nat /\ (Str.code k <= 122)%nat) \/
  Str.code k = 32%nat \/ Str.code k = 40%nat.

(** [keyword] is made of such characters only. *)
Fixpoint keyword_text (keyword : string) : Prop :=
  match keyword with
  | EmptyString => True
  | String k keyword' => keyword_char k /\ keyword_text keyword'
  end.

(** The cell lists of the rows of [data] that are lists of [n] cells. *)
Definition rows_of_width (n : nat) (data : list pyval) : list (list pyval) :=
  flat_map (fun row =>
    match row with
    | PList cells => if (List.length cells =? n)%nat then [cells] else []
    | _ => []
    end) data.

(** The cell lists of the rows of [data] that are lists. *)
Definition list_rows (data : list pyval) : list (list pyval) :=
  flat_map (fun row => match row with PList cells => [cells] | _ => [] end) data.

(** The mapping from column name to cell by position: the cell of position
    [i] is stored under the name of position [i], for [i] = 0, 1, ... *)
Definition zip_columns (names : list string) (cells : list pyval) : pydict :=
  fold_left (fun d kv => Py.dict_put (PStr (fst kv)) (snd kv) d)
    (combine names cells) [].

(** The mapping of a row under the synthetic names [column_0], [column_1],
    ... *)
Definition synthetic_columns (cells : list pyval) : pydict :=
  combine (map (fun j => PStr ("column_" ++ Str.of_nat j)) (seq 0 (List.length cells)))
    cells.

(** [col] describes a column called [name]. *)
Definition column_named (col : pyval) (name : string) : Prop :=
  exists d, col = PDict d /\ Py.dict_get "name" d = Some (PStr name).

(** [rs] is a result set with the rows [data] and with column metadata that
    names the columns [names]. *)
Definition result_set_with_columns (rs : pydict) (names : list string)
    (data : list pyval) : Prop :=
  exists md cols,
    Py.dict_get "resultSetMetaData" rs = Some (PDict md) /\
    Py.dict_get "rowType" md = Some (PList cols) /\
    Forall2 column_named cols names /\
    Py.dict_get "data" rs = Some (PList data).

(** [rs] is a result set with the rows [data] and no
    [resultSetMetaData.rowType]: it has no [resultSetMetaData], or one in
    which ['rowType' in ...] is false (an object without that key, a list or
    a string without it).  A [resultSetMetaData] on which [in] raises (null,
    a number, a boolean) is not of this kind. *)
Definition result_set_without_columns (rs : pydict) (data : list pyval) : Prop :=
  (Py.dict_get "resultSetMetaData" rs = None \/
   exists md, Py.dict_get "resultSetMetaData" rs = Some md /\
              Py.contains "rowType" md = Ok false) /\
  Py.dict_get "data" rs = Some (PList data).


(** The structure [parse_sql_result] returns when nothing was raised. *)
Definition sql_success (sql_query : string) (rows : list pyval) (meta : pyval) : pyval :=
  obj [("type", PStr "sql_execution");
       ("sql_query", PStr sql_query);
       ("executed", PBool true);
       ("execution_results", PList rows);
       ("result_metadata", meta);
       ("row_count", PInt (Z.of_nat (List.length rows)));
       ("execution_note", PStr "SQL executed successfully via Snowflake MCP server.")].

(** What a content item contributes to the search for a statement. *)
Inductive item_kind : Type :=
| Skipped                      (* not textual, or JSON without a statement *)
| RawText (t : pyval)          (* textual, text is not JSON *)
| Statement (statement : pyval) (* textual, JSON with a [statement] field *)
| Fails (e : exn).             (* looking at the item raises *)

(** The outcome of the search over a sequence of items: the first
    [Statement] or [Fails] decides; without either it is the last [RawText],
    starting from [candidate]. *)
Fixpoint chosen_statement (kinds : list item_kind) (candidate : pyval) : res pyval :=
  match kinds with
  | [] => Ok candidate
  | Skipped :: rest => chosen_statement rest candidate
  | RawText t :: rest => chosen_statement rest t
  | Statement s :: _ => Ok s
  | Fails e :: _ => Raise e
  end.

(** How a line of an event stream is read. *)
Inductive line_kind : Type :=
| Payload (v : pyval)          (* a data line whose payload parses *)
| NoPayload.                   (* any other line *)

(** The payloads among the lines read, in order. *)
Definition payloads (kinds : list line_kind) : list pyval :=
  flat_map (fun k => match k with Payload v => [v] | NoPayload => [] end) kinds.

(** [s] is made of white space only. *)
Fixpoint blank (s : string) : Prop :=
  match s with
  | EmptyString => True
  | String c s' => Str.is_space c = true /\ blank s'
  end.

(** [s] is not empty and its last character is no white space. *)
Fixpoint ends_on_text (s : string) : Prop :=
  match s with
  | EmptyString => False
  | String c s' =>
      match s' with
      | EmptyString => Str.is_space c = false
      | String _ _ => ends_on_text s'
      end
  end.

(** [line] is a data line with the payload text [suffix]: it is 'data: '
    followed by [suffix], which does not end in white space, with nothing
    but white space before and after. *)
Definition data_line (line suffix : string) : Prop :=
  exists pre post,
    line = pre ++ ("data: " ++ suffix) ++ post /\
    blank pre /\ blank post /\ ends_on_text ("data: " ++ suffix).

Section Vocabulary.

Context {rt : Runtime}.

(** The content of [result] is the list [items]. *)
Definition has_content (result : pyval) (items : list pyval) : Prop :=
  content_items result = Ok (Some items).

(** [item] is a textual content item with the text [t]. *)
Definition textual (item : pyval) (t : string) : Prop :=
  is_text_item item = Ok true /\ Py.getitem item "text" = Ok (PStr t).

(** The kind of a content item. *)
Inductive has_kind (item : pyval) : item_kind -> Prop :=
| kind_other :
    is_text_item item = Ok false -> has_kind item Skipped
| kind_no_statement t j :
    textual item t -> json_loads t = Ok j ->
    Py.contains "statement" j = Ok false -> has_kind item Skipped
| kind_raw t detail :
    textual item t -> json_loads t = Raise (JSONDecodeError detail) ->
    has_kind item (RawText (PStr t))
| kind_statement t j s :
    textual item t -> json_loads t = Ok j ->
    Py.contains "statement" j = Ok true ->
    Py.getitem j "statement" = Ok s -> has_kind item (Statement s)
| kind_not_an_item e :
    is_text_item item = Raise e -> has_kind item (Fails e)
| kind_text_not_a_string v :
    is_text_item item = Ok true -> Py.getitem item "text" = Ok v ->
    (forall s, v <> PStr s) -> has_kind item (Fails (TypeError "json.loads" v))
| kind_loads_raises t e :
    textual item t -> json_loads t = Raise e -> is_JSONDecodeError e = false ->
    has_kind item (Fails e)
| kind_not_a_container t j e :
    textual item t -> json_loads t = Ok j ->
    Py.contains "statement" j = Raise e -> has_kind item (Fails e)
| kind_not_an_object t j e :
    textual item t -> json_loads t = Ok j ->
    Py.contains "statement" j = Ok true ->
    Py.getitem j "statement" = Raise e -> has_kind item (Fails e).

(** How a line of an event stream is read, when [json.loads] parses its
    payload or raises a [JSONDecodeError] on it. *)
Inductive reads_as (line : string) : line_kind -> Prop :=
| reads_no_data :
    (forall suffix, ~ data_line line suffix) -> reads_as line NoPayload
| reads_payload suffix v :
    data_line line suffix -> json_loads suffix = Ok v ->
    reads_as line (Payload v)
| reads_undecodable suffix detail :
    data_line line suffix -> json_loads suffix = Raise (JSONDecodeError detail) ->
    reads_as line NoPayload.

(** [d] is the object parsed from the response: the JSON body, or the
    candidate left by an event stream read to its end. *)
Definition parsed_object (resp : response) (d : pydict) : Prop :=
  if Str.contains "text/event-stream" (content_type resp)
  then read_event_stream (iter_lines resp) = Ok (PDict d)
  else json resp = Ok (PDict d).

End Vocabulary.

(** The messages of the three failures [_make_rpc_call] raises itself. *)
Definition http_error (status : Z) (body : string) : exn :=
  PyException ("HTTP " ++ Str.of_Z status ++ ": " ++ body).

Definition remote_error (rendered : string) : exn :=
  PyException ("MCP Error: " ++ rendered).

Definition no_payload_error : exn :=
  PyException "No valid JSON data found in SSE stream".

Definition unknown_shape_error : exn :=
  PyException "Unexpected response format".

Section Failures.

Context {rt : Runtime}.

(** What [_make_rpc_call] raises in place of a [requests.RequestException]. *)
Definition request_failure (e : exn) : exn :=
  PyException ("Request failed: " ++ str_exn e).

(** What the caller of [_make_rpc_call] sees of an exception [e] raised
    while the response is read: a [requests.RequestException] comes out
    wrapped, any other exception as it is. *)
Definition surfaced (e : exn) : exn :=
  if is_RequestException e then request_failure e else e.

End Failures.

(** ** A runtime for the examples *)

(** Turns the apostrophes of [s] into double quotes, to write JSON text. *)
Fixpoint dq (s : string) : string :=
  match s with
  | EmptyString => EmptyString
  | String c s' =>
      String (if (nat_of_ascii c =? 39)%nat then ascii_of_nat 34 else c) (dq s')
  end.

Definition doc_table : string :=
  dq "{'result_set': {'resultSetMetaData': {'rowType': [{'name': 'name'}, {'name': 'val'}]}, 'data': [['a', 1], ['b', 2]]}}".

Definition doc_ragged : string :=
  dq "{'result_set': {'resultSetMetaData': {'rowType': [{'name': 'name'}, {'name': 'val'}]}, 'data': [['a', 1], ['b']]}}".

Definition doc_bare : string :=
  dq "{'result_set': {'data': [['a', 1]]}}".

Definition doc_tools : string :=
  dq "{'result': {'tools': []}}".

Definition doc_statement : string :=
  dq "{'statement': 'SELECT COUNT(*) FROM t'}".

Definition two_columns : pyval :=
  obj [("rowType", PList [obj [("name", PStr "name")]; obj [("name", PStr "val")]])].

(** [json.loads] on the documents of the examples; the other strings the
    examples hand to it are not JSON. *)
Definition sample_loads (s : string) : res pyval :=
  if String.eqb s doc_table then
    Ok (obj [("result_set",
                obj [("resultSetMetaData", two_columns);
                     ("data", PList [PList [PStr "a"; PInt 1];
                                     PList [PStr "b"; PInt 2]])])])
  else if String.eqb s doc_ragged then
    Ok (obj [("result_set",
                obj [("resultSetMetaData", two_columns);
                     ("data", PList [PList [PStr "a"; PInt 1];
                                     PList [PStr "b"]])])])
  else if String.eqb s doc_bare then
    Ok (obj [("result_set",
                obj [("data", PList [PList [PStr "a"; PInt 1]])])])
  else if String.eqb s doc_tools then
    Ok (obj [("result", obj [("tools", PList [])])])
  else if String.eqb s doc_statement then
    Ok (obj [("statement", PStr "SELECT COUNT(*) FROM t")])
  else Raise (JSONDecodeError s).

(** [str] on the values the examples apply it to: strings, integers,
    booleans and [None]. *)
Definition sample_str (v : pyval) : string :=
  match v with
  | PStr s => s
  | PInt z => Str.of_Z z
  | PBool true => "True"
  | PBool false => "False"
  | PNone => "None"
  | _ => ""
  end.

(** [str] on an exception: the examples only need that it is some text, and
    take the name of the exception's class. *)
Definition sample_exn_text (e : exn) : string :=
  match e with
  | TypeError _ _ => "TypeError"
  | AttributeError _ _ => "AttributeError"
  | KeyError _ => "KeyError"
  | JSONDecodeError _ => "JSONDecodeError"
  | ValueError detail => detail
  | RecursionError => "RecursionError"
  | RequestException detail => detail
  | PyException msg => msg
  end.

Definition sample_runtime : Runtime := {|
  json_loads := sample_loads;
  py_str := sample_str;
  exn_text := sample_exn_text
|}.

(** ** The HTTP routes *)

(** [len(x)] *)
Definition py_len (x : pyval) : res Z :=
  match x with
  | PList l => Ok (Z.of_nat (List.length l))
  | PDict d => Ok (Z.of_nat (List.length d))
  | PStr s => Ok (Z.of_nat (String.length s))
  | _ => Raise (TypeError "len" x)
  end.

(** [x.lower()] *)
Definition py_lower (x : pyval) : res string :=
  match x with
  | PStr s => Ok (Str.lower s)
  | _ => Raise (AttributeError x "lower")
  end.

(** [isinstance(x, dict)] *)
Definition is_dict (x : pyval) : bool :=
  match x with PDict _ => true | _ => false end.

(** [a and b] and [a or b] on conditions that may raise: [b] is looked at
    only when [a] does not decide. *)
Definition and_then (a b : res bool) : res bool :=
  x <- a ;; if x then b else Ok false.

Definition or_then (a b : res bool) : res bool :=
  x <- a ;; if x then Ok true else b.

(** The tool names bound at module level (lines 74-77); [discover_tools]
    rebinds them and the other routes read them. *)
Record tool_names : Type := {
  MCP_SEARCH_TOOL : pyval;
  MCP_ANALYST_TOOL : pyval;
  MCP_SQL_TOOL : pyval;
  MCP_AGENT_TOOL : pyval
}.

Definition unbound_tool_names : tool_names := {|
  MCP_SEARCH_TOOL := PNone;
  MCP_ANALYST_TOOL := PNone;
  MCP_SQL_TOOL := PNone;
  MCP_AGENT_TOOL := PNone
|}.

(** What a route returns: the dictionary handed to [jsonify] and the HTTP
    status (200 when the code gives none). *)
Definition reply : Type := (pyval * Z)%type.

(** Line 484: the capabilities before any tool has been looked at. *)
Definition no_capabilities : pydict :=
  [(PStr "search", PNone); (PStr "analyst", PNone);
   (PStr "sql", PNone); (PStr "agent", PNone)].

(** The dictionary stored for a tool that matched (lines 503-508 and the
    three like it). *)
Definition capability (tool_name tool_description : pyval) (kind : string) : pyval :=
  PDict [(PStr "name", tool_name);
         (PStr "description", tool_description);
         (PStr "type", PStr kind);
         (PStr "available", PBool true)].

(** Lines 493-532: body of the loop of [discover_tools]; the loop variable
    is [tool_capabilities]. *)
Definition discover_tool (tool_capabilities : pydict) (tool : pyval)
    : res (flow pydict) :=
  tool_name <- Py.get_default tool "name" (PStr "") ;;
  tool_description <- Py.get_default tool "description" (PStr "") ;;
  input_schema <- Py.get_default tool "inputSchema" (PDict []) ;;
  properties <- Py.get_default input_schema "properties" (PDict []) ;;
  is_search <- and_then (Py.contains "query" properties)
                        (Py.contains "columns" properties) ;;
  if is_search then
    Ok (Next (Py.dict_put (PStr "search")
                (capability tool_name tool_description "CORTEX_SEARCH_SERVICE_QUERY")
                tool_capabilities))
  else
    is_analyst <- and_then (Py.contains "message" properties)
                    (d <- py_lower tool_description ;;
                     Ok (Str.contains "semantic" d)) ;;
    if is_analyst then
      Ok (Next (Py.dict_put (PStr "analyst")
                  (capability tool_name tool_description "CORTEX_ANALYST_MESSAGE")
                  tool_capabilities))
    else
      is_sql <- Py.contains "sql" properties ;;
      if is_sql then
        Ok (Next (Py.dict_put (PStr "sql")
                    (capability tool_name tool_description "SYSTEM_EXECUTE_SQL")
                    tool_capabilities))
      else
        is_agent <- and_then (Py.contains "text" properties)
                      (or_then (d <- py_lower tool_description ;;
                                Ok (Str.contains "agent" d))
                               (n <- py_lower tool_name ;;
                                Ok (Str.contains "agent" n))) ;;
        if is_agent then
          Ok (Next (Py.dict_put (PStr "agent")
                      (capability tool_name tool_description "CORTEX_AGENT_RUN")
                      tool_capabilities))
        else Ok (Next tool_capabilities).

(** Lines 536-543, for one name:
    [if tool_capabilities[key]: NAME = tool_capabilities[key]['name']]. *)
Definition rebind (tool_capabilities : pydict) (key : string) (current : pyval)
    : res pyval :=
  found <- Py.getitem (PDict tool_capabilities) key ;;
  if Py.truthy found then
    found <- Py.getitem (PDict tool_capabilities) key ;;
    Py.getitem found "name"
  else Ok current.

(** Lines 536-543: the names after the four rebindings, and the exception
    that stopped them if there was one; a name rebound before the exception
    stays rebound. *)
Definition rebind_all (tool_capabilities : pydict) (names : tool_names)
    : tool_names * option exn :=
  match rebind tool_capabilities "search" (MCP_SEARCH_TOOL names) with
  | Raise e => (names, Some e)
  | Ok search =>
      let names := {| MCP_SEARCH_TOOL := search;
                      MCP_ANALYST_TOOL := MCP_ANALYST_TOOL names;
                      MCP_SQL_TOOL := MCP_SQL_TOOL names;
                      MCP_AGENT_TOOL := MCP_AGENT_TOOL names |} in
      match rebind tool_capabilities "analyst" (MCP_ANALYST_TOOL names) with
      | Raise e => (names, Some e)
      | Ok analyst =>
          let names := {| MCP_SEARCH_TOOL := MCP_SEARCH_TOOL names;
                          MCP_ANALYST_TOOL := analyst;
                          MCP_SQL_TOOL := MCP_SQL_TOOL names;
                          MCP_AGENT_TOOL := MCP_AGENT_TOOL names |} in
          match rebind tool_capabilities "sql" (MCP_SQL_TOOL names) with
          | Raise e => (names, Some e)
          | Ok sql =>
              let names := {| MCP_SEARCH_TOOL := MCP_SEARCH_TOOL names;
                              MCP_ANALYST_TOOL := MCP_ANALYST_TOOL names;
                              MCP_SQL_TOOL := sql;
                              MCP_AGENT_TOOL := MCP_AGENT_TOOL names |} in
              match rebind tool_capabilities "agent" (MCP_AGENT_TOOL names) with
              | Raise e => (names, Some e)
              | Ok agent =>
                  ({| MCP_SEARCH_TOOL := MCP_SEARCH_TOOL names;
                      MCP_ANALYST_TOOL := MCP_ANALYST_TOOL names;
                      MCP_SQL_TOOL := MCP_SQL_TOOL names;
                      MCP_AGENT_TOOL := agent |}, None)
              end
          end
      end
  end.

Module Api.

Section Routes.

Context {rt : Runtime}.

(** The server and the network path to it, as for [_make_rpc_call]. *)
Variable session_post : pyval -> res response.

(** [datetime.now().isoformat()] at the time of the reply. *)
Variable now : string.

(** The value [v] inside an f-string. *)
Definition format_value (v : pyval) : string :=
  match v with
  | PStr s => s
  | _ => py_str v
  end.

(** The reply of the [except Exception] handler of the routes
    (lines 470-474, 643-647, 680-684). *)
Definition failure (e : exn) : reply :=
  (PDict [(PStr "success", PBool false);
          (PStr "error", PStr (str_exn e));
          (PStr "timestamp", PStr now)], 500%Z).

(** The reply to a request that lacks its text (lines 576, 657). *)
Definition rejected (why : string) : reply :=
  (PDict [(PStr "success", PBool false); (PStr "error", PStr why)], 400%Z).

(** Lines 763-772: the [try] block of [get_status]; [server_url] is
    [MCP_SERVER_URL]. *)
Definition get_status_body (server_url : string) : res reply :=
  tools <- list_tools session_post ;;
  n <- py_len tools ;;
  Ok (PDict [(PStr "connected", PBool true);
             (PStr "server_url", PStr server_url);
             (PStr "tools_available", PInt n);
             (PStr "timestamp", PStr now)], 200%Z).

Definition get_status (server_url : string) : res reply :=
  try_except
    (get_status_body server_url)
    is_Exception
    (fun e =>
       Ok (PDict [(PStr "connected", PBool false);
                  (PStr "error", PStr (str_exn e));
                  (PStr "timestamp", PStr now)], 500%Z)).

(** Lines 480-533: the capabilities found among the tools the server
    lists. *)
Definition discover_scan : res pydict :=
  tools <- list_tools session_post ;;
  tools <- Py.iter tools ;;
  for_each discover_tool tools no_capabilities.

(** Lines 479-551: the [try] block of [discover_tools], with the names as
    it leaves them. *)
Definition discover_body (names : tool_names) : res reply * tool_names :=
  match discover_scan with
  | Raise e => (Raise e, names)
  | Ok tool_capabilities =>
      match rebind_all tool_capabilities names with
      | (names, Some e) => (Raise e, names)
      | (names, None) =>
          (Ok (PDict [(PStr "success", PBool true);
                      (PStr "capabilities", PDict tool_capabilities);
                      (PStr "timestamp", PStr now)], 200%Z), names)
      end
  end.

Definition discover_tools (names : tool_names) : res reply * tool_names :=
  let '(outcome, names) := discover_body names in
  (try_except outcome is_Exception
     (fun e =>
        Ok (PDict [(PStr "success", PBool false);
                   (PStr "error", PStr (str_exn e));
                   (PStr "capabilities", PDict no_capabilities);
                   (PStr "timestamp", PStr now)], 500%Z)),
   names).

(** Lines 598-602 and 607-611: the document made from one search result. *)
Definition search_document (result_item : pyval) : res pyval :=
  text <- Py.get_default result_item "text" (PStr (py_str result_item)) ;;
  chunk <- Py.get_default result_item "CONTEXTUALIZED_CHUNK" text ;;
  Ok (PDict [(PStr "CONTEXTUALIZED_CHUNK", chunk);
             (PStr "source", PStr "cortex_search");
             (PStr "metadata", result_item)]).

(** Lines 613-616 and 619-622: the document made from a value that is not
    a dictionary. *)
Definition plain_document (v : pyval) : pyval :=
  PDict [(PStr "CONTEXTUALIZED_CHUNK", PStr (py_str v));
         (PStr "source", PStr "cortex_search")].

(** Lines 596-622: the documents a parsed search answer gives. *)
Definition search_results_documents (search_results : pyval) : res (list pyval) :=
  has_results <- and_then (Ok (is_dict search_results))
                          (Py.contains "results" search_results) ;;
  if has_results then
    results <- Py.getitem search_results "results" ;;
    results <- Py.iter results ;;
    mapM search_document results
  else
    match search_results with
    | PList results =>
        mapM (fun result_item =>
                if is_dict result_item then search_document result_item
                else Ok (plain_document result_item))
             results
    | _ => Ok [plain_document search_results]
    end.

(** Lines 590-628: body of the loop of [search_documents]; the loop
    variable is [documents]. *)
Definition search_item (documents : list pyval) (item : pyval)
    : res (flow (list pyval)) :=
  textual <- is_text_item item ;;
  if textual then
    documents <- try_except
                   (text <- Py.getitem item "text" ;;
                    search_results <- loads text ;;
                    found <- search_results_documents search_results ;;
                    Ok (documents ++ found)%list)
                   is_JSONDecodeError
                   (fun _ =>
                      text <- Py.getitem item "text" ;;
                      Ok (documents ++
                          [PDict [(PStr "CONTEXTUALIZED_CHUNK", text);
                                  (PStr "source", PStr "text_response")]])%list) ;;
    Ok (Next documents)
  else Ok (Next documents).

(** Lines 570-639: the [try] block of [search_documents];
    [request_json] is what [request.get_json()] gives. *)
Definition search_documents_body (names : tool_names) (request_json : res pyval)
    : res reply :=
  data <- request_json ;;
  query <- Py.get_default data "query" (PStr "") ;;
  limit <- Py.get_default data "limit" (PInt 10) ;;
  if negb (Py.truthy query) then Ok (rejected "Query is required")
  else
    result <- call_tool session_post (MCP_SEARCH_TOOL names)
                (PDict [(PStr "query", query); (PStr "limit", limit)]) ;;
    items <- content_items result ;;
    documents <- match items with
                 | Some items => for_each search_item items []
                 | None => Ok []
                 end ;;
    Ok (PDict [(PStr "success", PBool true);
               (PStr "results", PList documents);
               (PStr "query", query);
               (PStr "tool_used", MCP_SEARCH_TOOL names);
               (PStr "raw_mcp_response", result);
               (PStr "timestamp", PStr now)], 200%Z).

Definition search_documents (names : tool_names) (request_json : res pyval)
    : res reply :=
  try_except (search_documents_body names request_json) is_Exception
    (fun e => Ok (failure e)).

(** Lines 652-676: the [try] block of [analyze_data]. *)
Definition analyze_data_body (names : tool_names) (request_json : res pyval)
    : res reply :=
  data <- request_json ;;
  message <- Py.get_default data "message" (PStr "") ;;
  if negb (Py.truthy message) then Ok (rejected "Message is required")
  else
    result <- call_tool session_post (MCP_ANALYST_TOOL names)
                (PDict [(PStr "message", message)]) ;;
    analysis_result <- parse_analyst_result result (format_value message) ;;
    Ok (PDict [(PStr "success", PBool true);
               (PStr "results", analysis_result);
               (PStr "message", message);
               (PStr "tool_used", MCP_ANALYST_TOOL names);
               (PStr "raw_mcp_response", result);
               (PStr "timestamp", PStr now)], 200%Z).

Definition analyze_data (names : tool_names) (request_json : res pyval)
    : res reply :=
  try_except (analyze_data_body names request_json) is_Exception
    (fun e => Ok (failure e)).

(** Lines 457-466: the [try] block of the route [list_tools]. *)
Definition list_tools_body : res reply :=
  tools <- list_tools session_post ;;
  n <- py_len tools ;;
  Ok (PDict [(PStr "success", PBool true);
             (PStr "tools", tools);
             (PStr "count", PInt n);
             (PStr "timestamp", PStr now)], 200%Z).

(** The route [/api/tools]. *)
Definition list_tools : res reply :=
  try_except list_tools_body is_Exception (fun e => Ok (failure e)).

End Routes.

End Api.

(** No character of [s] is a colon. *)
Fixpoint colon_free (s : string) : Prop :=
  match s with
  | EmptyString => True
  | String c s' => c <> ":"%char /\ colon_free s'
  end.

(** ** Responses for the examples *)

(** An event stream of two data lines; only the second carries JSON. *)
Definition stream_response : response := {|
  status_code := 200;
  content_type := "text/event-stream";
  iter_lines := {| yielded := ["data: {partial"; ""; "data: " ++ doc_tools];
                   broken := None |};
  text := Ok "";
  json := Raise (RequestException "not JSON")
|}.

(** A plain JSON answer carrying an error. *)
Definition error_response : response := {|
  status_code := 200;
  content_type := "application/json";
  iter_lines := {| yielded := []; broken := None |};
  text := Ok (dq "{'error': 'X'}");
  json := Ok (obj [("error", PStr "X")])
|}.

(** A gateway timeout. *)
Definition timeout_response : response := {|
  status_code := 504;
  content_type := "text/html";
  iter_lines := {| yielded := []; broken := None |};
  text := Ok "Gateway Time-out";
  json := Raise (RequestException "not JSON")
|}.

(** A 201 whose body would have been a valid answer. *)
Definition created_response : response := {|
  status_code := 201;
  content_type := "application/json";
  iter_lines := {| yielded := []; broken := None |};
  text := Ok doc_tools;
  json := Ok (obj [("result", obj [("tools", PList [])])])
|}.

(** ** Vocabulary for the further properties *)

(** [result] is a dictionary without a list under ['content']. *)
Definition lacks_content (result : pyval) : Prop :=
  exists d, result = PDict d /\
    (Py.dict_get "content" d = None \/
     exists v, Py.dict_get "content" d = Some v /\ Py.is_list v = false).

Section FurtherVocabulary.

Context {rt : Runtime}.

(** What a content item adds to the results of [parse_sql_result] when it
    carries no result set. *)
Inductive sql_adds (item : pyval) : list pyval -> Prop :=
| sql_adds_nothing :
    is_text_item item = Ok false -> sql_adds item []
| sql_adds_text t detail :
    textual item t -> json_loads t = Raise (JSONDecodeError detail) ->
    sql_adds item [PDict [(PStr "result", PStr t)]]
| sql_adds_object t j :
    textual item t -> json_loads t = Ok (PDict j) ->
    Py.dict_get "result_set" j = None ->
    sql_adds item [PDict j].

(** The text a content item adds to the answer of [parse_agent_result]. *)
Inductive agent_adds (item : pyval) : string -> Prop :=
| agent_adds_nothing :
    is_text_item item = Ok false -> agent_adds item ""
| agent_adds_text t :
    textual item t -> agent_adds item (t ++ newline).

End FurtherVocabulary.

(** The four capabilities a tool can be filed under. *)
Inductive bucket : Type := Search | Analyst | Sql | Agent.

Definition bucket_eqb (a b : bucket) : bool :=
  match a, b with
  | Search, Search | Analyst, Analyst | Sql, Sql | Agent, Agent => true
  | _, _ => false
  end.

(** The tool type recorded for a capability. *)
Definition kind_of (b : bucket) : string :=
  match b with
  | Search => "CORTEX_SEARCH_SERVICE_QUERY"
  | Analyst => "CORTEX_ANALYST_MESSAGE"
  | Sql => "SYSTEM_EXECUTE_SQL"
  | Agent => "CORTEX_AGENT_RUN"
  end.

(** What [discover_tools] reads of a tool: its name, its description and
    the properties of its input schema. *)
Record descriptor : Type := {
  given_name : string;
  given_description : string;
  given_properties : pydict
}.

(** [tool] reads as [d]: name and description are strings (absent ones read
    as ''), the properties are a dictionary (absent ones read as {}). *)
Definition describes (tool : pyval) (d : descriptor) : Prop :=
  Py.get_default tool "name" (PStr "") = Ok (PStr (given_name d)) /\
  Py.get_default tool "description" (PStr "") = Ok (PStr (given_description d)) /\
  exists schema,
    Py.get_default tool "inputSchema" (PDict []) = Ok schema /\
    Py.get_default schema "properties" (PDict []) = Ok (PDict (given_properties d)).

(** The capability the rules give a tool: the first rule that applies. *)
Definition bucket_of (d : descriptor) : option bucket :=
  let has := fun k => Py.dict_has k (given_properties d) in
  let description := Str.lower (given_description d) in
  let name := Str.lower (given_name d) in
  if has "query" && has "columns" then Some Search
  else if has "message" && Str.contains "semantic" description then Some Analyst
  else if has "sql" then Some Sql
  else if has "text" && (Str.contains "agent" description || Str.contains "agent" name)
  then Some Agent
  else None.

Definition filed_under (b : bucket) (d : descriptor) : bool :=
  match bucket_of d with
  | Some b' => bucket_eqb b b'
  | None => false
  end.

(** The last tool of the list filed under [b]. *)
Fixpoint last_of (b : bucket) (ds : list descriptor) : option descriptor :=
  match ds with
  | [] => None
  | d :: rest =>
      match last_of b rest with
      | Some later => Some later
      | None => if filed_under b d then Some d else None
      end
  end.

(** What the reply holds for [b] after the tools [ds]. *)
Definition found (b : bucket) (ds : list descriptor) : pyval :=
  match last_of b ds with
  | Some d => capability (PStr (given_name d)) (PStr (given_description d)) (kind_of b)
  | None => PNone
  end.


(** The capabilities dictionary with the given entries. *)
Definition capabilities (search analyst sql agent : pyval) : pydict :=
  [(PStr "search", search); (PStr "analyst", analyst);
   (PStr "sql", sql); (PStr "agent", agent)].

(** An entry of the capabilities dictionary: nothing, or a capability. *)
Definition entry_ok (v : pyval) : Prop :=
  v = PNone \/ exists n d k, v = capability n d k.

(** What one tool does to the entry of [b]. *)
Definition entry_after (b : bucket) (d : descriptor) (before : pyval) : pyval :=
  if filed_under b d
  then capability (PStr (given_name d)) (PStr (given_description d)) (kind_of b)
  else before.

Section SearchVocabulary.

Context {rt : Runtime}.

(** The text shown for a search result that is a dictionary: its
    [CONTEXTUALIZED_CHUNK], else its [text], else the text of the whole
    result. *)
Definition chunk_of (d : pydict) : pyval :=
  match Py.dict_get "CONTEXTUALIZED_CHUNK" d with
  | Some chunk => chunk
  | None =>
      match Py.dict_get "text" d with
      | Some text => text
      | None => PStr (py_str (PDict d))
      end
  end.

Definition document_of (d : pydict) : pyval :=
  PDict [(PStr "CONTEXTUALIZED_CHUNK", chunk_of d);
         (PStr "source", PStr "cortex_search");
         (PStr "metadata", PDict d)].

(** The document for an element of a JSON list of results. *)
Definition listed_document (v : pyval) : pyval :=
  match v with
  | PDict d => document_of d
  | _ => Api.plain_document v
  end.

(** The documents a content item adds to the results of
    [search_documents]. *)
Inductive search_adds (item : pyval) : list pyval -> Prop :=
| search_adds_nothing :
    is_text_item item = Ok false -> search_adds item []
| search_adds_text t detail :
    textual item t -> json_loads t = Raise (JSONDecodeError detail) ->
    search_adds item [PDict [(PStr "CONTEXTUALIZED_CHUNK", PStr t);
                             (PStr "source", PStr "text_response")]]
| search_adds_results t j results :
    textual item t -> json_loads t = Ok (PDict j) ->
    Py.dict_get "results" j = Some (PList (map PDict results)) ->
    search_adds item (map document_of results)
| search_adds_list t values :
    textual item t -> json_loads t = Ok (PList values) ->
    search_adds item (map listed_document values)
| search_adds_object t j :
    textual item t -> json_loads t = Ok (PDict j) ->
    Py.dict_get "results" j = None ->
    search_adds item [Api.plain_document (PDict j)]
| search_adds_scalar t v :
    textual item t -> json_loads t = Ok v ->
    is_dict v = false -> Py.is_list v = false ->
    search_adds item [Api.plain_document v].

End SearchVocabulary.

(** The value under [key] in a request, [default] when the key is absent. *)
Definition field (key : string) (default : pyval) (request : pydict) : pyval :=
  match Py.dict_get key request with
  | Some v => v
  | None => default
  end.

(** ** Further examples *)

Definition doc_no_columns : string :=
  dq "{'result_set': {'resultSetMetaData': {'rowType': []}, 'data': [['a', 1]]}}".

Definition doc_number_statement : string :=
  dq "{'statement': 42}".

Definition doc_search : string :=
  dq "{'results': [{'CONTEXTUALIZED_CHUNK': 'chunk one'}, {'text': 'plain two'}]}".

Definition doc_status : string :=
  dq "{'status': 'ok'}".

Definition doc_mixed_results : string :=
  dq "{'results': [{'text': 'plain two'}, 'loose text']}".

(** A JSON document that is one integer of [n] digits. *)
Fixpoint digits (n : nat) : string :=
  match n with
  | O => ""
  | S n => String "9" (digits n)
  end.

(** An integer beyond the 4300 digits [int] converts from a string. *)
Definition doc_long_integer : string := digits 4301.

(** The text of the [ValueError] that [json.loads] raises on it. *)
Definition long_integer_message : string :=
  "Exceeds the limit (4300 digits) for integer string conversion: value has 4301 digits; use sys.set_int_max_str_digits() to increase the limit".

Definition doc_null_metadata : string :=
  dq "{'result_set': {'resultSetMetaData': null, 'data': [['a', 1]]}}".

Definition doc_number : string := "42".

(** [json.loads] on the documents of the further examples, and as
    [sample_loads] on the others.  On the long integer the conversion to
    [int] raises a [ValueError], which is no [JSONDecodeError]. *)
Definition further_loads (s : string) : res pyval :=
  if String.eqb s doc_no_columns then
    Ok (obj [("result_set",
                obj [("resultSetMetaData", obj [("rowType", PList [])]);
                     ("data", PList [PList [PStr "a"; PInt 1]])])])
  else if String.eqb s doc_number_statement then
    Ok (obj [("statement", PInt 42)])
  else if String.eqb s doc_search then
    Ok (obj [("results",
                PList [obj [("CONTEXTUALIZED_CHUNK", PStr "chunk one")];
                       obj [("text", PStr "plain two")]])])
  else if String.eqb s doc_status then
    Ok (obj [("status", PStr "ok")])
  else if String.eqb s doc_mixed_results then
    Ok (obj [("results",
                PList [obj [("text", PStr "plain two")]; PStr "loose text"])])
  else if String.eqb s doc_null_metadata then
    Ok (obj [("result_set",
              obj [("resultSetMetaData", PNone);
                   ("data", PList [PList [PStr "a"; PInt 1]])])])
  else if String.eqb s doc_number then
    Ok (PInt 42)
  else if String.eqb s doc_long_integer then
    Raise (ValueError long_integer_message)
  else sample_loads s.

Definition further_runtime : Runtime := {|
  json_loads := further_loads;
  py_str := sample_str;
  exn_text := sample_exn_text
|}.

(** A server that gives the same response to every request. *)
Definition answering (resp : response) : pyval -> res response :=
  fun _ => Ok resp.

(** A server that cannot be reached. *)
Definition unreachable : pyval -> res response :=
  fun _ => Raise (RequestException "connection refused").

(** A plain JSON response with the given body. *)
Definition json_response (body : pyval) : response := {|
  status_code := 200;
  content_type := "application/json";
  iter_lines := {| yielded := []; broken := None |};
  text := Ok "";
  json := Ok body
|}.

(** An event stream whose first data line carries an integer too long to
    convert, and whose second data line carries an answer. *)
Definition long_integer_response : response := {|
  status_code := 200;
  content_type := "text/event-stream";
  iter_lines := {| yielded := ["data: " ++ doc_long_integer; "data: " ++ doc_tools];
                   broken := None |};
  text := Ok "";
  json := Raise (RequestException "not JSON")
|}.

(** An event stream that breaks after a data line with an answer. *)
Definition broken_stream_response : response := {|
  status_code := 200;
  content_type := "text/event-stream";
  iter_lines := {| yielded := ["data: " ++ doc_tools];
                   broken := Some (RequestException "Connection broken") |};
  text := Ok "";
  json := Raise (RequestException "not JSON")
|}.

(** A response with the given status whose body cannot be read. *)
Definition unreadable_response (status : Z) : response := {|
  status_code := status;
  content_type := "text/html";
  iter_lines := {| yielded := [];
                   broken := Some (RequestException "Connection broken") |};
  text := Raise (RequestException "Connection broken");
  json := Raise (RequestException "Connection broken")
|}.

(** A 200 response whose body is not JSON. *)
Definition html_response : response := {|
  status_code := 200;
  content_type := "text/html";
  iter_lines := {| yielded := []; broken := None |};
  text := Ok "<html>";
  json := Raise (RequestException "Expecting value")
|}.

Definition schema_with (properties : list string) : pyval :=
  obj [("properties", obj (map (fun p => (p, obj [])) properties))].

Definition search_tool : pyval :=
  obj [("name", PStr "policy-search");
       ("description", PStr "Search the policy documents");
       ("inputSchema", schema_with ["query"; "columns"])].

Definition analyst_tool : pyval :=
  obj [("name", PStr "revenue-view");
       ("description", PStr "Semantic view of revenue");
       ("inputSchema", schema_with ["message"])].


Definition nameless_tool : pyval :=
  obj [("description", PNone);
       ("inputSchema", schema_with ["message"])].

(** The answer to a listing with the given tools. *)
Definition listing (tools : list pyval) : response :=
  json_response (obj [("result", obj [("tools", PList tools)])]).

(** The answer to a tool call with the given content items. *)
Definition tool_answer (items : list pyval) : response :=
  json_response (obj [("result", tool_result items)]).

Definition search_tool_read : descriptor := {|
  given_name := "policy-search";
  given_description := "Search the policy documents";
  given_properties := [(PStr "query", obj []); (PStr "columns", obj [])]
|}.



(** * Properties *)

(** ** Strings *)

Lemma startswith_app (p s : string) :
  Str.startswith p s = true <-> exists b, s = p ++ b.
Proof.
  revert s; induction p as [|c p IH]; intros s; simpl.
  - split; [intros _; now exists s | reflexivity].
  - destruct s as [|c' s].
    + split; [discriminate | intros [b Hb]; discriminate].
    + rewrite andb_true_iff, Ascii.eqb_eq, IH. split.
      * intros [-> [b ->]]. now exists b.
      * intros [b Hb]. injection Hb as -> ->. split; [reflexivity | now exists b].
Qed.

Lemma contains_substring (p s : string) :
  Str.contains p s = true <-> substring_of p s.
Proof.
  unfold substring_of.
  induction s as [|c s IH].
  - simpl. rewrite orb_false_r, startswith_app. split.
    + intros [b Hb]. now exists "", b.
    + intros [a [b Hab]]. destruct a; simpl in Hab; [now exists b|discriminate].
  - cbn [Str.contains]. rewrite orb_true_iff, startswith_app, IH. split.
    + intros [[b Hb]|[a [b Hab]]].
      * now exists "", b.
      * exists (String c a), b. simpl. now rewrite Hab.
    + intros [a [b Hab]]. destruct a as [|c' a]; simpl in Hab.
      * left. now exists b.
      * right. exists a, b. congruence.
Qed.

Lemma contains_false (p s : string) :
  Str.contains p s = false <-> ~ substring_of p s.
Proof.
  rewrite <- contains_substring. destruct (Str.contains p s); split; congruence.
Qed.

(** ** determine_query_type *)

Example classify_aggregation :
  determine_query_type "SELECT COUNT(*) FROM t GROUP BY x" = "aggregation".
Proof. reflexivity. Qed.

Example classify_distinct :
  determine_query_type "SELECT DISTINCT x FROM t" = "distinct".
Proof. reflexivity. Qed.

Example classify_count :
  determine_query_type "SELECT COUNT(*) FROM t" = "count".
Proof. reflexivity. Qed.

Example classify_other_text :
  determine_query_type "drop the table, please" = "select".
Proof. reflexivity. Qed.

Lemma lower_char_matches (c k : ascii) :
  keyword_char k -> (Str.lower_char c = k <-> matches_letter c k).
Proof.
  unfold keyword_char, matches_letter, Str.lower_char, Str.code.
  intros Hk. pose proof (nat_ascii_bounded c) as Hc.
  destruct (((65 <=? nat_of_ascii c) && (nat_of_ascii c <=? 90)
             || (192 <=? nat_of_ascii c) && (nat_of_ascii c <=? 222)
                && negb (nat_of_ascii c =? 215))%nat) eqn:E.
  - assert (Hn : nat_of_ascii (ascii_of_nat (nat_of_ascii c + 32))
                 = (nat_of_ascii c + 32)%nat).
    { apply nat_ascii_embedding.
      apply orb_true_iff in E. destruct E as [E|E].
      - apply andb_true_iff in E. destruct E as [_ E].
        apply Nat.leb_le in E. lia.
      - apply andb_true_iff in E. destruct E as [E _].
        apply andb_true_iff in E. destruct E as [_ E].
        apply Nat.leb_le in E. lia. }
    split.
    + intros <-. rewrite Hn in *. right.
      apply orb_true_iff in E. destruct E as [E|E].
      * apply andb_true_iff in E. destruct E as [E1 E2].
        apply Nat.leb_le in E1, E2. lia.
      * apply andb_true_iff in E. destruct E as [E _].
        apply andb_true_iff in E. destruct E as [E1 E2].
        apply Nat.leb_le in E1, E2. lia.
    + intros [->|[H1 [H2 H3]]].
      * exfalso.
        apply orb_true_iff in E. destruct E as [E|E].
        -- apply andb_true_iff in E. destruct E as [E1 E2].
           apply Nat.leb_le in E1, E2. lia.
        -- apply andb_true_iff in E. destruct E as [E _].
           apply andb_true_iff in E. destruct E as [E1 E2].
           apply Nat.leb_le in E1, E2. lia.
      * rewrite H3. apply ascii_nat_embedding.
  - split; [intros ->; now left|].
    intros [->|[H1 [H2 H3]]]; [reflexivity|]. exfalso.
    apply orb_false_iff in E. destruct E as [E _].
    apply andb_false_iff in E.
    destruct E as [E|E]; apply Nat.leb_gt in E; lia.
Qed.

Lemma lower_variant (keyword : string) :
  keyword_text keyword ->
  forall w, Str.lower w = keyword <-> variant_of w keyword.
Proof.
  induction keyword as [|k keyword IH]; intros Hk [|c w]; simpl;
    try (split; [discriminate | contradiction]).
  - split; auto.
  - destruct Hk as [Hk Hrest]. split.
    + intros H. injection H as Hc Hw. split.
      * now apply lower_char_matches.
      * now apply IH.
    + intros [Hc Hw]. f_equal.
      * now apply lower_char_matches.
      * now apply IH.
Qed.

Lemma lower_app (a b : string) : Str.lower (a ++ b) = Str.lower a ++ Str.lower b.
Proof. induction a as [|c a IH]; simpl; [reflexivity | now rewrite IH]. Qed.

Lemma lower_app_inv (x y s : string) :
  Str.lower s = x ++ y ->
  exists a b, s = a ++ b /\ Str.lower a = x /\ Str.lower b = y.
Proof.
  revert s; induction x as [|c x IH]; intros s H.
  - exists "", s. auto.
  - destruct s as [|c' s]; [discriminate|].
    simpl in H. injection H as Hc Hs.
    destruct (IH s Hs) as [a [b [-> [Ha Hb]]]].
    exists (String c' a), b. simpl. rewrite Ha, Hc. auto.
Qed.

(** The test [keyword in sql.lower()] finds the keyword written in any mix
    of cases. *)
Lemma contains_lower (keyword s : string) :
  keyword_text keyword ->
  (Str.contains keyword (Str.lower s) = true <-> occurs_ignoring_case keyword s).
Proof.
  intros Hk. rewrite contains_substring. unfold substring_of, occurs_ignoring_case.
  split.
  - intros [x [y H]].
    destruct (lower_app_inv _ _ _ H) as [a [rest [-> [Ha Hrest]]]].
    destruct (lower_app_inv _ _ _ Hrest) as [w [b [-> [Hw Hb]]]].
    exists a, w, b. split; [reflexivity|]. now apply lower_variant.
  - intros [a [w [b [-> Hw]]]].
    exists (Str.lower a), (Str.lower b).
    rewrite !lower_app. now rewrite (proj2 (lower_variant _ Hk w) Hw).
Qed.

Lemma keyword_count : keyword_text "count(".
Proof. simpl; repeat split; unfold keyword_char; vm_compute; lia. Qed.

Lemma keyword_group_by : keyword_text "group by".
Proof. simpl; repeat split; unfold keyword_char; vm_compute; lia. Qed.

Lemma keyword_select_distinct : keyword_text "select distinct".
Proof. simpl; repeat split; unfold keyword_char; vm_compute; lia. Qed.

(** C9. [determine_query_type] returns, for every string, exactly one of
    'aggregation', 'distinct', 'count' and 'select', decided by looking for
    three keywords written in any mix of upper and lower case, in this order
    of priority: 'count(' together with 'group by', then 'select distinct',
    then 'count(', and 'select' for every other string; two strings with the
    same lowered text get the same answer. *)
Theorem determine_query_type_total (sql : string) :
  let q := determine_query_type sql in
  let count := occurs_ignoring_case "count(" sql in
  let group_by := occurs_ignoring_case "group by" sql in
  let distinct := occurs_ignoring_case "select distinct" sql in
  (q = "aggregation" \/ q = "distinct" \/ q = "count" \/ q = "select") /\
  (q = "aggregation" <-> count /\ group_by) /\
  (q = "distinct" <-> ~ (count /\ group_by) /\ distinct) /\
  (q = "count" <-> ~ group_by /\ ~ distinct /\ count) /\
  (q = "select" <-> ~ count /\ ~ distinct) /\
  (forall sql', Str.lower sql' = Str.lower sql -> determine_query_type sql' = q).
Proof.
  intros q count group_by distinct. subst q count group_by distinct.
  rewrite <- !(@contains_lower _ sql keyword_count),
          <- !(@contains_lower _ sql keyword_group_by),
          <- !(@contains_lower _ sql keyword_select_distinct).
  unfold determine_query_type.
  split; [|split; [|split; [|split; [|split]]]].
  - destruct (Str.contains "count(" (Str.lower sql)),
      (Str.contains "group by" (Str.lower sql)),
      (Str.contains "select distinct" (Str.lower sql)); simpl; auto.
  - destruct (Str.contains "count(" (Str.lower sql)),
      (Str.contains "group by" (Str.lower sql)),
      (Str.contains "select distinct" (Str.lower sql)); simpl;
      split; try discriminate; try tauto; intros [? ?]; discriminate.
  - destruct (Str.contains "count(" (Str.lower sql)),
      (Str.contains "group by" (Str.lower sql)),
      (Str.contains "select distinct" (Str.lower sql)); simpl;
      split; try discriminate; intuition congruence.
  - destruct (Str.contains "count(" (Str.lower sql)),
      (Str.contains "group by" (Str.lower sql)),
      (Str.contains "select distinct" (Str.lower sql)); simpl;
      split; try discriminate; intuition congruence.
  - destruct (Str.contains "count(" (Str.lower sql)),
      (Str.contains "group by" (Str.lower sql)),
      (Str.contains "select distinct" (Str.lower sql)); simpl;
      split; try discriminate; intuition congruence.
  - intros sql' H. now rewrite H.
Qed.

(** ** Dictionaries *)

Lemma contains_raises (k : string) (x : pyval) (e : exn) :
  Py.contains k x = Raise e -> e = TypeError "in" x.
Proof. destruct x; simpl; intros H; try discriminate; now injection H. Qed.

Lemma getitem_raises (x : pyval) (k : string) (e : exn) :
  Py.getitem x k = Raise e -> is_JSONDecodeError e = false.
Proof.
  destruct x; simpl; intros H; try (injection H as <-; reflexivity).
  destruct (Py.dict_get k d); [discriminate|]. now injection H as <-.
Qed.

Lemma contains_dict (k : string) (d : pydict) (v : pyval) :
  Py.dict_get k d = Some v -> Py.contains k (PDict d) = Ok true.
Proof. intros H. simpl. unfold Py.dict_has. now rewrite H. Qed.

Lemma contains_dict_none (k : string) (d : pydict) :
  Py.dict_get k d = None -> Py.contains k (PDict d) = Ok false.
Proof. intros H. simpl. unfold Py.dict_has. now rewrite H. Qed.

Lemma getitem_dict (k : string) (d : pydict) (v : pyval) :
  Py.dict_get k d = Some v -> Py.getitem (PDict d) k = Ok v.
Proof. intros H. simpl. now rewrite H. Qed.

Lemma dict_put_fresh (k v : pyval) (d : pydict) :
  Forall (fun kv => Py.eq_scalar k (fst kv) = false) d ->
  Py.dict_put k v d = (d ++ [(k, v)])%list.
Proof.
  induction 1 as [|[k' v'] d Hk _ IH]; simpl; [reflexivity|].
  simpl in Hk. now rewrite Hk, IH.
Qed.

Lemma combine_app {A B : Type} (l1 l2 : list A) (m1 m2 : list B) :
  List.length l1 = List.length m1 ->
  combine (l1 ++ l2) (m1 ++ m2) = (combine l1 m1 ++ combine l2 m2)%list.
Proof.
  revert m1; induction l1 as [|a l1 IH]; intros [|b m1] H; try discriminate.
  - reflexivity.
  - simpl. f_equal. apply IH. now injection H.
Qed.

Lemma row_count_length (l : list pyval) :
  (if Py.truthy (PList l) then Z.of_nat (List.length l) else 0%Z)
  = Z.of_nat (List.length l).
Proof. now destruct l. Qed.

(** ** Decimal numerals *)

Lemma to_uint_nonnil (n : nat) : Nat.to_uint n <> Nil.
Proof.
  rewrite <- (Unsigned.of_to n) at 1. rewrite Unsigned.to_of.
  apply DecimalFacts.unorm_nonnil.
Qed.

Lemma of_nat_inj (a b : nat) : Str.of_nat a = Str.of_nat b -> a = b.
Proof.
  unfold Str.of_nat. intros H.
  apply Unsigned.to_uint_inj.
  assert (E : Some (Nat.to_uint a) = Some (Nat.to_uint b)).
  { rewrite <- (NilZero.usu _ (to_uint_nonnil a)), <- (NilZero.usu _ (to_uint_nonnil b)).
    now rewrite H. }
  now injection E.
Qed.

(** ** Rows *)

Lemma fill_row_names (names : list string) :
  forall (cells pre : list pyval) (d : pydict),
    List.length names = List.length cells ->
    fill_row (map PStr names) (pre ++ cells) (List.length pre) d
    = Ok (fold_left (fun d kv => Py.dict_put (PStr (fst kv)) (snd kv) d)
            (combine names cells) d).
Proof.
  induction names as [|n names IH]; intros cells pre d Hlen.
  - reflexivity.
  - destruct cells as [|c cells]; [discriminate|].
    injection Hlen as Hlen.
    cbn [map fill_row combine fold_left fst snd].
    assert (Hlt : (List.length pre <? List.length (pre ++ c :: cells))%nat = true).
    { apply Nat.ltb_lt. rewrite length_app. simpl. lia. }
    rewrite Hlt, nth_middle. cbn [Py.setitem Py.hashable bind].
    replace (pre ++ c :: cells)%list with ((pre ++ [c]) ++ cells)%list
      by now rewrite <- app_assoc.
    replace (S (List.length pre)) with (List.length (pre ++ [c])%list)
      by (rewrite length_app; simpl; lia).
    now apply IH.
Qed.

Lemma named_rows_spec (names : list string) (data : list pyval) :
  forall acc,
    named_rows (map PStr names) data acc
    = Ok (acc ++ map (fun cells => PDict (zip_columns names cells))
                     (rows_of_width (List.length names) data))%list.
Proof.
  induction data as [|row data IH]; intros acc.
  - simpl. now rewrite app_nil_r.
  - cbn [named_rows rows_of_width flat_map].
    fold (rows_of_width (List.length names) data).
    destruct row as [| | | | |cells|]; try (cbn [List.app]; apply IH).
    rewrite length_map.
    destruct (List.length cells =? List.length names)%nat eqn:E.
    + apply Nat.eqb_eq in E.
      pose proof (fill_row_names names cells [] [] (eq_sym E)) as F.
      cbn [List.app List.length] in F. rewrite F.
      cbn [bind]. rewrite IH. cbn [List.app map].
      unfold zip_columns. now rewrite <- app_assoc.
    + cbn [List.app]. apply IH.
Qed.


Lemma column_keys_fresh (j : nat) (pre : list pyval) :
  List.length pre = j ->
  Forall (fun kv => Py.eq_scalar (PStr ("column_" ++ Str.of_nat j)) (fst kv) = false)
    (combine (map (fun i => PStr ("column_" ++ Str.of_nat i)) (seq 0 j)) pre).
Proof.
  intros _. apply Forall_forall. intros [k v] Hin.
  apply in_combine_l in Hin. apply in_map_iff in Hin.
  destruct Hin as [i [<- Hi]]. apply in_seq in Hi. simpl.
  apply String.eqb_neq. intros H.
  assert (E : Str.of_nat j = Str.of_nat i) by (simpl in H; congruence).
  apply of_nat_inj in E. lia.
Qed.

Lemma generic_row_spec (cells : list pyval) :
  forall (j : nat) (pre : list pyval),
    List.length pre = j ->
    generic_row cells j
      (combine (map (fun i => PStr ("column_" ++ Str.of_nat i)) (seq 0 j)) pre)
    = synthetic_columns (pre ++ cells).
Proof.
  unfold synthetic_columns.
  induction cells as [|c cells IH]; intros j pre Hpre.
  - simpl. now rewrite app_nil_r, Hpre.
  - cbn [generic_row].
    rewrite dict_put_fresh by now apply column_keys_fresh.
    replace (pre ++ c :: cells)%list with ((pre ++ [c]) ++ cells)%list
      by now rewrite <- app_assoc.
    rewrite <- (IH (S j) (pre ++ [c])%list) by (rewrite length_app; simpl; lia).
    f_equal. rewrite seq_S, map_app.
    rewrite combine_app by (now rewrite length_map, length_seq).
    reflexivity.
Qed.

Lemma generic_rows_spec (data : list pyval) :
  forall acc,
    generic_rows data acc
    = (acc ++ map (fun cells => PDict (synthetic_columns cells)) (list_rows data))%list.
Proof.
  induction data as [|row data IH]; intros acc.
  - simpl. now rewrite app_nil_r.
  - cbn [generic_rows list_rows flat_map]. fold (list_rows data).
    destruct row as [| | | | |cells|]; try (cbn [List.app]; apply IH).
    pose proof (@generic_row_spec cells 0 [] eq_refl) as E.
    cbn [seq map combine List.app] in E.
    rewrite IH, E. cbn [List.app map]. now rewrite <- app_assoc.
Qed.

(** ** parse_sql_result *)

Section SqlProperties.

Context {rt : Runtime}.

Lemma loads_ok (t : string) (j : pyval) :
  json_loads t = Ok j -> loads (PStr t) = Ok j.
Proof. intros H. exact H. Qed.

Lemma loads_fails (t : string) (e : exn) :
  json_loads t = Raise e -> loads (PStr t) = Raise e.
Proof. intros H. exact H. Qed.

Lemma loads_not_a_string (v : pyval) :
  (forall s, v <> PStr s) -> loads v = Raise (TypeError "json.loads" v).
Proof. intros H. destruct v; try reflexivity. now destruct (H s). Qed.

Lemma mapM_names (cols : list pyval) (names : list string) :
  Forall2 column_named cols names ->
  mapM (fun col => Py.getitem col "name") cols = Ok (map PStr names).
Proof.
  induction 1 as [|col name cols names [d [-> Hd]] _ IH]; [reflexivity|].
  cbn [mapM map]. rewrite (getitem_dict _ _ Hd). cbn [bind]. now rewrite IH.
Qed.

Lemma read_metadata_columns (rs : pydict) (names : list string)
    (data : list pyval) :
  result_set_with_columns rs names data ->
  exists n, forall m0,
    read_metadata (PDict rs) m0
    = Ok (Some {| columns := map PStr names; num_rows := n |}).
Proof.
  intros [md [cols [Hmd [Hrt [Hcols _]]]]].
  exists (match Py.dict_get "numRows" md with Some n => n | None => PInt 0 end).
  intros m0. unfold read_metadata.
  rewrite (contains_dict _ _ Hmd). cbn [bind].
  rewrite (getitem_dict _ _ Hmd). cbn [bind].
  rewrite (contains_dict _ _ Hrt). cbn [bind].
  rewrite (getitem_dict _ _ Hrt). cbn [bind Py.iter].
  rewrite (mapM_names Hcols). cbn [bind Py.get_default].
  destruct (Py.dict_get "numRows" md) as [n|]; reflexivity.
Qed.

Lemma read_metadata_absent (rs : pydict) (data : list pyval) (m0 : option metadata) :
  result_set_without_columns rs data -> read_metadata (PDict rs) m0 = Ok m0.
Proof.
  intros [[Hmd|[md [Hmd Hrt]]] _]; unfold read_metadata.
  - now rewrite (contains_dict_none _ _ Hmd).
  - rewrite (contains_dict _ _ Hmd). cbn [bind].
    rewrite (getitem_dict _ _ Hmd). cbn [bind].
    now rewrite Hrt.
Qed.


(** The loop body of [parse_sql_result] on a textual item whose text is the
    JSON value [payload]. *)
Lemma sql_item_response (st st' : sql_state) (item : pyval) (t : string)
    (payload : pyval) :
  textual item t ->
  json_loads t = Ok payload ->
  sql_response st payload = Ok st' ->
  sql_item st item = Ok (Next st').
Proof.
  intros [Ht Hg] Hj Hr. unfold sql_item. rewrite Ht. cbn [bind].
  rewrite Hg. cbn [bind]. rewrite (loads_ok _ Hj). cbn [bind]. now rewrite Hr.
Qed.



(** The loop of [parse_sql_result] on a content of one item. *)
Lemma sql_scan_single (result item : pyval) (st : sql_state) :
  has_content result [item] ->
  sql_item ([], None) item = Ok (Next st) ->
  sql_scan result = Ok st.
Proof.
  intros Hc Hi. unfold sql_scan. rewrite Hc. cbn [bind for_each].
  now rewrite Hi.
Qed.

Lemma sql_body_success (result : pyval) (q : string) (rows : list pyval)
    (m : option metadata) :
  sql_scan result = Ok (rows, m) ->
  parse_sql_result result q = Ok (sql_success q rows (metadata_value m)).
Proof.
  intros H. unfold parse_sql_result, sql_body. rewrite H.
  cbn [bind try_except]. now rewrite row_count_length.
Qed.




End SqlProperties.

(** ** The interpreters as a whole *)

Section InterpreterProperties.

Context {rt : Runtime}.

(** C10. Whenever the [try] block of [parse_sql_result] finishes without an
    exception, the structure it returns has 'row_count' equal to the length
    of 'execution_results', 'type' equal to 'sql_execution' and 'executed'
    equal to True. *)
Theorem parse_sql_result_row_count (result : pyval) (q : string) (out : pyval) :
  sql_body result q = Ok out ->
  parse_sql_result result q = Ok out /\
  exists d rows,
    out = PDict d /\
    Py.dict_get "execution_results" d = Some (PList rows) /\
    Py.dict_get "row_count" d = Some (PInt (Z.of_nat (List.length rows))) /\
    Py.dict_get "type" d = Some (PStr "sql_execution") /\
    Py.dict_get "executed" d = Some (PBool true).
Proof.
  intros H. split.
  - unfold parse_sql_result. now rewrite H.
  - unfold sql_body in H.
    destruct (sql_scan result) as [[rows m]|e]; [|discriminate].
    cbn [bind] in H. injection H as <-.
    eexists; exists rows. split; [reflexivity|].
    destruct rows; repeat split.
Qed.

(** C7. None of the three interpreters raises: for every input each returns
    a dictionary, and whenever its [try] block raises an exception the
    dictionary returned carries an 'error' field with the text of that
    exception. *)
Theorem interpreters_never_raise (result : pyval) (request : string) :
  (exists d,
     parse_analyst_result result request = Ok (PDict d) /\
     forall e, analyst_body result request = Raise e ->
               Py.dict_get "error" d = Some (PStr (str_exn e))) /\
  (exists d,
     parse_sql_result result request = Ok (PDict d) /\
     forall e, sql_body result request = Raise e ->
               Py.dict_get "error" d = Some (PStr (str_exn e))) /\
  (exists d,
     parse_agent_result result request = Ok (PDict d) /\
     forall e, agent_body result request = Raise e ->
               Py.dict_get "error" d = Some (PStr (str_exn e))).
Proof.
  split; [|split].
  - unfold parse_analyst_result, try_except.
    destruct (analyst_body result request) as [out|e] eqn:E.
    + unfold analyst_body in E.
      destruct (extract_statement result) as [s|e]; [|discriminate].
      cbn [bind] in E.
      destruct (negb (Py.truthy s)).
      * injection E as <-. eexists. split; [reflexivity|discriminate].
      * destruct (Py.strip s) as [s'|e]; [|discriminate].
        injection E as <-. eexists. split; [reflexivity|discriminate].
    + cbn [is_Exception]. eexists. split; [reflexivity|].
      intros e' He'. injection He' as <-. reflexivity.
  - unfold parse_sql_result, try_except.
    destruct (sql_body result request) as [out|e] eqn:E.
    + unfold sql_body in E.
      destruct (sql_scan result) as [[rows m]|e]; [|discriminate].
      injection E as <-. eexists. split; [reflexivity|discriminate].
    + cbn [is_Exception]. eexists. split; [reflexivity|].
      intros e' He'. injection He' as <-. reflexivity.
  - unfold parse_agent_result, try_except.
    destruct (agent_body result request) as [out|e] eqn:E.
    + unfold agent_body in E.
      destruct (content_items result) as [items|e]; [|discriminate].
      cbn [bind] in E.
      destruct (match items with
                | Some items => for_each agent_item items ""
                | None => Ok ""
                end) as [a|e]; [|discriminate].
      injection E as <-. eexists. split; [reflexivity|discriminate].
    + cbn [is_Exception]. eexists. split; [reflexivity|].
      intros e' He'. injection He' as <-. reflexivity.
Qed.

Lemma analyst_item_kind (item : pyval) (k : item_kind) (candidate : pyval) :
  has_kind item k ->
  analyst_item candidate item
  = match k with
    | Skipped => Ok (Next candidate)
    | RawText t => Ok (Next t)
    | Statement s => Ok (Break s)
    | Fails e => Raise e
    end.
Proof.
  unfold analyst_item.
  intros [Hn | t j [Ht Hg] Hj Hs | t detail [Ht Hg] Hj | t j s [Ht Hg] Hj Hs Hv
         | e He | v Ht Hg Hv | t e [Ht Hg] Hj He | t j e [Ht Hg] Hj Hs
         | t j e [Ht Hg] Hj Hs Hv].
  - now rewrite Hn.
  - rewrite Ht. cbn [bind]. rewrite Hg. cbn [bind].
    rewrite (loads_ok _ Hj). cbn [bind]. now rewrite Hs.
  - rewrite Ht. cbn [bind]. rewrite Hg. cbn [bind].
    now rewrite (loads_fails _ Hj).
  - rewrite Ht. cbn [bind]. rewrite Hg. cbn [bind].
    rewrite (loads_ok _ Hj). cbn [bind]. rewrite Hs. cbn [bind].
    now rewrite Hv.
  - now rewrite He.
  - rewrite Ht. cbn [bind]. rewrite Hg. cbn [bind].
    now rewrite (loads_not_a_string Hv).
  - rewrite Ht. cbn [bind]. rewrite Hg. cbn [bind].
    rewrite (loads_fails _ Hj). cbn [bind try_except]. now rewrite He.
  - rewrite Ht. cbn [bind]. rewrite Hg. cbn [bind].
    rewrite (loads_ok _ Hj). cbn [bind]. rewrite Hs. cbn [bind try_except].
    now rewrite (contains_raises _ _ Hs).
  - rewrite Ht. cbn [bind]. rewrite Hg. cbn [bind].
    rewrite (loads_ok _ Hj). cbn [bind]. rewrite Hs. cbn [bind].
    rewrite Hv. cbn [bind try_except]. now rewrite (getitem_raises _ _ Hv).
Qed.

Lemma analyst_scan_kinds (items : list pyval) (kinds : list item_kind) :
  Forall2 has_kind items kinds ->
  forall candidate,
    for_each analyst_item items candidate = chosen_statement kinds candidate.
Proof.
  induction 1 as [|item k items kinds Hk _ IH]; intros candidate; [reflexivity|].
  cbn [for_each]. rewrite (analyst_item_kind candidate Hk).
  destruct k; cbn [bind chosen_statement]; auto.
Qed.

(** A textual item has a text. *)
Lemma text_item_has_text (item : pyval) :
  is_text_item item = Ok true -> exists v, Py.getitem item "text" = Ok v.
Proof.
  unfold is_text_item, Py.get, Py.get_default.
  destruct item; try discriminate.
  destruct (match Py.dict_get "type" d with Some v => Ok v | None => Ok PNone end)
    as [ty|e]; [|discriminate].
  cbn [bind]. destruct (Py.eq_str ty "text"); [|discriminate].
  cbn [Py.contains Py.getitem]. unfold Py.dict_has.
  destruct (Py.dict_get "text" d) as [v|]; [|discriminate].
  intros _. now exists v.
Qed.

(** Every value has a kind as a content item. *)
Lemma has_kind_total (item : pyval) : exists k, has_kind item k.
Proof.
  destruct (is_text_item item) as [[|]|e] eqn:Ht.
  - destruct (text_item_has_text _ Ht) as [v Hg].
    assert (Hs : (exists t, v = PStr t) \/ (forall s, v <> PStr s)).
    { destruct v; try (right; intros s' H; discriminate). left. now exists s. }
    destruct Hs as [[t ->]|Hv].
    + assert (Htx : textual item t) by (split; assumption).
      destruct (json_loads t) as [j|e] eqn:Hj.
      * destruct (Py.contains "statement" j) as [[|]|e] eqn:Hs.
        -- destruct (Py.getitem j "statement") as [s|e] eqn:Hv.
           ++ exists (Statement s). eapply kind_statement; eassumption.
           ++ exists (Fails e). eapply kind_not_an_object; eassumption.
        -- exists Skipped. eapply kind_no_statement; eassumption.
        -- exists (Fails e). eapply kind_not_a_container; eassumption.
      * destruct (is_JSONDecodeError e) eqn:He.
        -- destruct e; try discriminate.
           exists (RawText (PStr t)). eapply kind_raw; eassumption.
        -- exists (Fails e). eapply kind_loads_raises; eassumption.
    + exists (Fails (TypeError "json.loads" v)).
      eapply kind_text_not_a_string; eassumption.
  - exists Skipped. now apply kind_other.
  - exists (Fails e). now apply kind_not_an_item.
Qed.

Lemma has_kinds_total (items : list pyval) :
  exists kinds, Forall2 has_kind items kinds.
Proof.
  induction items as [|item items [kinds IH]].
  - exists []. constructor.
  - destruct (has_kind_total item) as [k Hk].
    exists (k :: kinds). now constructor.
Qed.

(** C6 (amended). The analysis interpreter goes through the content items in
    order, and every item is of one of four kinds.  A textual item whose
    text parses as a JSON object with a [statement] field gives the
    statement and ends the search.  A textual item whose text is not JSON
    makes its raw text the statement so far and the search goes on, so that
    without a JSON statement the raw text of the last such item is the
    statement.  An item that is not textual, or whose JSON holds no
    [statement], is passed over.  An item on which the look for a statement
    raises (a text that is not a string, a JSON number, null or boolean, a
    JSON string or list holding 'statement', a content item that is not an
    object, an exception of [json.loads] other than the decode error) ends
    the search with that exception, and the interpreter returns its error
    structure.  A statement that is a non-empty string is returned,
    stripped, as 'sql_query'. *)
Theorem extract_statement_scan (result : pyval) (items : list pyval)
    (query : string) :
  has_content result items ->
  (exists kinds, Forall2 has_kind items kinds) /\
  (forall kinds,
     Forall2 has_kind items kinds ->
     extract_statement result = chosen_statement kinds PNone /\
     (forall s,
        chosen_statement kinds PNone = Ok (PStr s) -> Str.nonempty s = true ->
        exists d,
          parse_analyst_result result query = Ok (PDict d) /\
          Py.dict_get "sql_query" d = Some (PStr (Str.strip s)) /\
          Py.dict_get "query_type" d
            = Some (PStr (determine_query_type (Str.strip s))) /\
          Py.dict_get "error" d = None) /\
     (forall e,
        chosen_statement kinds PNone = Raise e ->
        exists d,
          parse_analyst_result result query = Ok (PDict d) /\
          Py.dict_get "error" d = Some (PStr (str_exn e)) /\
          Py.dict_get "executed" d = Some (PBool false) /\
          Py.dict_get "query_type" d = None)).
Proof.
  intros Hc. split; [apply has_kinds_total|].
  intros kinds Hk.
  assert (E : extract_statement result = chosen_statement kinds PNone).
  { unfold extract_statement. rewrite Hc. cbn [bind].
    now apply analyst_scan_kinds. }
  split; [exact E|]. split.
  - intros s Hs Hne.
    unfold parse_analyst_result, analyst_body. rewrite E, Hs.
    cbn [bind Py.truthy]. rewrite Hne.
    cbn [negb Py.strip bind try_except].
    eexists. repeat split.
  - intros e He.
    unfold parse_analyst_result, analyst_body. rewrite E, He.
    cbn [bind try_except is_Exception].
    eexists. repeat split.
Qed.

End InterpreterProperties.

(** ** Error messages *)

Lemma split_at_colon (a b x y : string) :
  colon_free a -> colon_free b ->
  a ++ String ":" x = b ++ String ":" y -> a = b /\ x = y.
Proof.
  revert b; induction a as [|c a IH]; intros [|c' b] Ha Hb H; simpl in *.
  - injection H as ->. auto.
  - injection H as <- _. now destruct Hb.
  - injection H as -> _. now destruct Ha.
  - injection H as -> H. destruct Ha as [_ Ha], Hb as [_ Hb].
    destruct (IH b Ha Hb H) as [-> ->]. auto.
Qed.

Lemma of_Z_inj (a b : Z) : Str.of_Z a = Str.of_Z b -> a = b.
Proof.
  unfold Str.of_Z. intros H. apply DecimalZ.to_int_inj.
  assert (N : forall z, Z.to_int z <> Pos Nil /\ Z.to_int z <> Neg Nil).
  { intros [|p|p]; simpl; split; try discriminate;
      intros E; injection E as E;
      exact (DecimalPos.Unsigned.to_uint_nonnil _ E). }
  assert (E : Some (Z.to_int a) = Some (Z.to_int b)).
  { destruct (N a) as [Ha1 Ha2], (N b) as [Hb1 Hb2].
    rewrite <- (NilZero.isi _ Ha1 Ha2), <- (NilZero.isi _ Hb1 Hb2).
    now rewrite H. }
  now injection E.
Qed.

Lemma uint_colon_free (d : uint) : colon_free (NilEmpty.string_of_uint d).
Proof. induction d; simpl; auto; split; auto; discriminate. Qed.

Lemma of_Z_colon_free (z : Z) : colon_free (Str.of_Z z).
Proof.
  unfold Str.of_Z, NilZero.string_of_int, NilZero.string_of_uint.
  destruct (Z.to_int z) as [d|d]; destruct d;
    try (simpl; repeat split; try discriminate; apply uint_colon_free).
Qed.

(** The message of an HTTP failure determines the status code and the body
    text. *)
Lemma http_error_inj (s s' : Z) (t t' : string) :
  http_error s t = http_error s' t' -> s = s' /\ t = t'.
Proof.
  unfold http_error. intros H. injection H as H.
  change (": " ++ t) with (String ":" (String " " t)) in H.
  change (": " ++ t') with (String ":" (String " " t')) in H.
  apply split_at_colon in H; try apply of_Z_colon_free.
  destruct H as [H1 H2]. apply of_Z_inj in H1. split; congruence.
Qed.

Lemma http_error_not_remote (s : Z) (t rendered : string) :
  http_error s t <> remote_error rendered.
Proof. unfold http_error, remote_error. simpl. intros H. discriminate. Qed.

(** ** _make_rpc_call *)

Section ClientProperties.

Context {rt : Runtime}.

Variable session_post : pyval -> res response.

Lemma drop_prefix (p s : string) : Str.drop (String.length p) (p ++ s) = s.
Proof. induction p as [|c p IH]; [now destruct s | exact IH]. Qed.

Lemma lstrip_blank (pre s : string) :
  blank pre -> Str.lstrip (pre ++ s) = Str.lstrip s.
Proof.
  induction pre as [|c pre IH]; [reflexivity|].
  intros [Hc Hpre]. simpl. rewrite Hc. now apply IH.
Qed.

Lemma rstrip_blank (post : string) : blank post -> Str.rstrip post = "".
Proof.
  induction post as [|c post IH]; [reflexivity|].
  intros [Hc Hpost]. simpl. now rewrite (IH Hpost), Hc.
Qed.

Lemma rstrip_text (core post : string) :
  ends_on_text core -> blank post -> Str.rstrip (core ++ post) = core.
Proof.
  intros Hcore Hpost. induction core as [|c core IH]; [contradiction|].
  destruct core as [|c' core].
  - cbn [String.append Str.rstrip]. rewrite (rstrip_blank _ Hpost).
    cbn [ends_on_text] in Hcore. now rewrite Hcore.
  - specialize (IH Hcore).
    change ((String c (String c' core)) ++ post)
      with (String c ((String c' core) ++ post)).
    cbn [Str.rstrip]. now rewrite IH.
Qed.

Lemma lstrip_split (s : string) :
  exists pre, s = pre ++ Str.lstrip s /\ blank pre.
Proof.
  induction s as [|c s [pre [Hs Hpre]]]; [now exists ""|].
  cbn [Str.lstrip]. destruct (Str.is_space c) eqn:Hc.
  - exists (String c pre). simpl. rewrite <- Hs. auto.
  - now exists "".
Qed.

Lemma rstrip_split (s : string) :
  exists post, s = Str.rstrip s ++ post /\ blank post.
Proof.
  induction s as [|c s [post [Hs Hpost]]]; [now exists ""|].
  cbn [Str.rstrip]. destruct (Str.rstrip s) as [|c' r].
  - simpl in Hs. subst post. destruct (Str.is_space c) eqn:Hc.
    + exists (String c s). simpl. auto.
    + exists s. auto.
  - exists post. simpl in *. now rewrite <- Hs.
Qed.

Lemma rstrip_ends (s : string) :
  Str.rstrip s <> "" -> ends_on_text (Str.rstrip s).
Proof.
  induction s as [|c s IH]; [intros H; now destruct H|].
  cbn [Str.rstrip]. destruct (Str.rstrip s) as [|c' r].
  - destruct (Str.is_space c) eqn:Hc; [intros H; now destruct H|].
    intros _. exact Hc.
  - intros _. apply IH. discriminate.
Qed.

(** The code's test for a data line, on the line itself. *)
Lemma data_line_stripped (line suffix : string) :
  data_line line suffix <-> Str.strip line = "data: " ++ suffix.
Proof.
  unfold Str.strip. split.
  - intros [pre [post [-> [Hpre [Hpost Hend]]]]].
    rewrite (lstrip_blank pre _ Hpre).
    change (Str.lstrip (("data: " ++ suffix) ++ post))
      with (("data: " ++ suffix) ++ post).
    now apply rstrip_text.
  - intros H.
    destruct (lstrip_split line) as [pre [Hline Hpre]].
    destruct (rstrip_split (Str.lstrip line)) as [post [Hrest Hpost]].
    exists pre, post. rewrite <- H. split; [|split; [|split]]; auto.
    + now rewrite <- Hrest.
    + apply rstrip_ends. rewrite H. discriminate.
Qed.

Lemma data_line_nonempty (line suffix : string) :
  data_line line suffix -> Str.nonempty line = true.
Proof.
  intros H. apply data_line_stripped in H.
  destruct line; [discriminate | reflexivity].
Qed.

Lemma sse_line_reads (line : string) (k : line_kind) (result : pyval) :
  reads_as line k ->
  sse_line result line
  = Ok (match k with Payload v => v | NoPayload => result end).
Proof.
  unfold sse_line.
  intros [Hno | suffix v Hd Hj | suffix detail Hd Hj].
  - destruct (Str.nonempty line); [|reflexivity].
    destruct (Str.startswith "data: " (Str.strip line)) eqn:E; [|reflexivity].
    apply startswith_app in E. destruct E as [b Hb].
    apply data_line_stripped in Hb. now destruct (Hno b).
  - rewrite (data_line_nonempty Hd). apply data_line_stripped in Hd. rewrite Hd.
    rewrite (proj2 (startswith_app "data: " _)) by now exists suffix.
    rewrite drop_prefix, Hj. reflexivity.
  - rewrite (data_line_nonempty Hd). apply data_line_stripped in Hd. rewrite Hd.
    rewrite (proj2 (startswith_app "data: " _)) by now exists suffix.
    rewrite drop_prefix, Hj. reflexivity.
Qed.

Lemma last_after (v : pyval) (l : list pyval) (init : pyval) :
  last (v :: l) init = last l v.
Proof.
  revert v init; induction l as [|w l IH]; intros v init; [reflexivity|].
  change (last (v :: w :: l) init) with (last (w :: l) init).
  rewrite IH. symmetry. apply IH.
Qed.

Lemma read_lines_last (lines : list string) (kinds : list line_kind) :
  Forall2 reads_as lines kinds ->
  forall init, read_lines lines init = Ok (last (payloads kinds) init).
Proof.
  induction 1 as [|line k lines kinds Hk _ IH]; intros init; [reflexivity|].
  cbn [read_lines]. rewrite (sse_line_reads init Hk). cbn [bind].
  rewrite IH. unfold payloads. cbn [flat_map]. fold (payloads kinds).
  destruct k as [v|]; [|reflexivity].
  cbn [List.app]. now rewrite last_after.
Qed.

(** The call on a 200 response that declares an event stream. *)
Lemma rpc_call_on_stream (method : string) (params : pyval) (resp : response) :
  session_post (rpc_payload method params) = Ok resp ->
  status_code resp = 200%Z ->
  Str.contains "text/event-stream" (content_type resp) = true ->
  _make_rpc_call session_post method params
  = try_except
      (result <- read_event_stream (iter_lines resp) ;; unwrap result)
      is_RequestException
      (fun e => Raise (request_failure e)).
Proof.
  intros Hpost Hs Hct. unfold _make_rpc_call. rewrite Hpost. cbn [bind].
  unfold handle_response. rewrite Hs, Hct. reflexivity.
Qed.

(** The call on a response whose status is not 200. *)
Lemma rpc_call_not_200 (method : string) (params : pyval) (resp : response) :
  session_post (rpc_payload method params) = Ok resp ->
  status_code resp <> 200%Z ->
  _make_rpc_call session_post method params
  = match text resp with
    | Ok t => Raise (http_error (status_code resp) t)
    | Raise e => Raise (surfaced e)
    end.
Proof.
  intros Hpost Hs. unfold _make_rpc_call. rewrite Hpost. cbn [bind].
  unfold handle_response. apply Z.eqb_neq in Hs. rewrite Hs.
  destruct (text resp) as [t|e]; [reflexivity|].
  cbn [bind try_except]. unfold surfaced.
  now destruct (is_RequestException e).
Qed.

Lemma request_failure_not_remote (e : exn) (rendered : string) :
  request_failure e <> remote_error rendered.
Proof. unfold request_failure, remote_error. simpl. intros H. discriminate. Qed.

(** Nothing [unwrap] raises is a [requests.RequestException]. *)
Lemma unwrap_escapes (result : pyval) (handler : exn -> res pyval) :
  try_except (unwrap result) is_RequestException handler = unwrap result.
Proof.
  unfold unwrap.
  destruct result as [| b | z | f | s | l | d];
    cbn [Py.contains Py.getitem bind]; try reflexivity.
  - destruct (Str.contains "result" s); cbn [bind]; [reflexivity|].
    destruct (Str.contains "error" s); reflexivity.
  - destruct (existsb (Py.eq_scalar (PStr "result")) l); cbn [bind]; [reflexivity|].
    destruct (existsb (Py.eq_scalar (PStr "error")) l); reflexivity.
  - unfold Py.dict_has.
    destruct (Py.dict_get "result" d); cbn [bind]; [reflexivity|].
    destruct (Py.dict_get "error" d); reflexivity.
Qed.

Lemma unwrap_object (d : pydict) :
  unwrap (PDict d)
  = match Py.dict_get "result" d with
    | Some v => Ok v
    | None =>
        match Py.dict_get "error" d with
        | Some err => Raise (remote_error (py_str err))
        | None => Raise unknown_shape_error
        end
    end.
Proof.
  unfold unwrap. cbn [Py.contains Py.getitem bind]. unfold Py.dict_has.
  destruct (Py.dict_get "result" d); [reflexivity|].
  cbn [bind]. destruct (Py.dict_get "error" d); reflexivity.
Qed.

(** C8 (amended). A response whose status is not exactly 200, other 2xx
    statuses included, is never processed as an answer: whatever the content
    type, the stream and the JSON body are, they are not looked at.  The
    call reads the body text: when that is read, it raises the HTTP error
    made of the status and the text; when reading it raises, the call raises
    what the caller sees of that exception. *)
Theorem non_200_raises_http_error (method : string) (params : pyval)
    (status : Z) (ctype : string) (lines : stream) (body_text : res string)
    (body_json : res pyval) :
  session_post (rpc_payload method params)
    = Ok {| status_code := status; content_type := ctype; iter_lines := lines;
            text := body_text; json := body_json |} ->
  status <> 200%Z ->
  _make_rpc_call session_post method params
  = match body_text with
    | Ok t => Raise (http_error status t)
    | Raise e => Raise (surfaced e)
    end.
Proof.
  intros Hpost Hs. rewrite (rpc_call_not_200 Hpost); [reflexivity | exact Hs].
Qed.

(** C4 (amended). A response with a status outside 200-299 whose body text
    can be read makes the call raise the HTTP error, whose message carries
    the status code and the body text (both can be read back from it); the
    body is not parsed as a JSON-RPC response; and the exception differs from
    every remote error, so a 504 cannot be mistaken for an error returned by
    the remote tool.  When reading the body text raises a
    [requests.RequestException], the call raises the request failure made
    from it, which differs from every remote error as well. *)
Theorem non_2xx_raises_transport_error (method : string) (params : pyval)
    (resp : response) :
  session_post (rpc_payload method params) = Ok resp ->
  (status_code resp < 200 \/ 299 < status_code resp)%Z ->
  (forall body,
     text resp = Ok body ->
     _make_rpc_call session_post method params
       = Raise (http_error (status_code resp) body) /\
     (forall status' text',
        http_error (status_code resp) body = http_error status' text' ->
        status_code resp = status' /\ body = text') /\
     (forall rendered,
        http_error (status_code resp) body <> remote_error rendered)) /\
  (forall e,
     text resp = Raise e -> is_RequestException e = true ->
     _make_rpc_call session_post method params = Raise (request_failure e) /\
     (forall rendered, request_failure e <> remote_error rendered)).
Proof.
  intros Hpost Hs.
  assert (Hne : status_code resp <> 200%Z) by lia.
  pose proof (rpc_call_not_200 Hpost Hne) as Hcall.
  split.
  - intros body Hbody. rewrite Hbody in Hcall. split; [exact Hcall|split].
    + intros status' text'. apply http_error_inj.
    + intros rendered. apply http_error_not_remote.
  - intros e He Hreq. rewrite He in Hcall. unfold surfaced in Hcall.
    rewrite Hreq in Hcall. split; [exact Hcall|].
    intros rendered. apply request_failure_not_remote.
Qed.

(** C5 (amended). Once a response object has been parsed, the call returns
    the value under [result] when the object has that key; otherwise, when
    it has an [error] key, it raises the remote error whose message is made
    from the text of that value; otherwise it raises the error for an
    unrecognized response. *)
Theorem unwrap_parsed_object (method : string) (params : pyval)
    (resp : response) (d : pydict) :
  session_post (rpc_payload method params) = Ok resp ->
  status_code resp = 200%Z ->
  parsed_object resp d ->
  _make_rpc_call session_post method params
  = match Py.dict_get "result" d with
    | Some v => Ok v
    | None =>
        match Py.dict_get "error" d with
        | Some err => Raise (remote_error (py_str err))
        | None => Raise unknown_shape_error
        end
    end.
Proof.
  intros Hpost Hs Hd. unfold _make_rpc_call. rewrite Hpost. cbn [bind].
  unfold handle_response. rewrite Hs. cbn [Z.eqb Pos.eqb].
  unfold parsed_object in Hd.
  destruct (Str.contains "text/event-stream" (content_type resp)).
  - rewrite Hd. cbn [bind]. rewrite unwrap_escapes. apply unwrap_object.
  - rewrite Hd. cbn [bind]. rewrite unwrap_escapes. apply unwrap_object.
Qed.

(** C3 (amended). On a 200 response that declares an event stream, on whose
    data lines [json.loads] returns a value or raises a decode error, the
    candidate result is the payload of the last data line whose payload
    parses as JSON, whatever the earlier lines were.  When the stream is
    read to its end and no data line parses, or the last payload is null,
    the call raises the error for a stream without a valid payload and
    returns nothing; otherwise the last payload goes to the unwrap step.
    When the stream breaks, the call raises what the caller sees of the
    exception, whatever was parsed before. *)
Theorem event_stream_last_payload (method : string) (params : pyval)
    (resp : response) (kinds : list line_kind) :
  session_post (rpc_payload method params) = Ok resp ->
  status_code resp = 200%Z ->
  Str.contains "text/event-stream" (content_type resp) = true ->
  Forall2 reads_as (yielded (iter_lines resp)) kinds ->
  read_lines (yielded (iter_lines resp)) PNone = Ok (last (payloads kinds) PNone) /\
  (broken (iter_lines resp) = None ->
   (payloads kinds = [] ->
    _make_rpc_call session_post method params = Raise no_payload_error) /\
   (forall earlier final,
      payloads kinds = (earlier ++ [final])%list ->
      _make_rpc_call session_post method params
      = if Py.is_None final then Raise no_payload_error else unwrap final)) /\
  (forall e,
     broken (iter_lines resp) = Some e ->
     _make_rpc_call session_post method params = Raise (surfaced e)).
Proof.
  intros Hpost Hs Hct Hk.
  pose proof (rpc_call_on_stream Hpost Hs Hct) as Hcall.
  pose proof (read_lines_last Hk PNone) as Hread.
  split; [exact Hread|split].
  - intros Hend. split.
    + intros Hnil. rewrite Hcall. unfold read_event_stream.
      rewrite Hread, Hnil, Hend. reflexivity.
    + intros earlier final Hlast. rewrite Hcall. unfold read_event_stream.
      rewrite Hread, Hlast, last_last, Hend. cbn [bind].
      destruct (Py.is_None final); [reflexivity|].
      cbn [bind]. apply unwrap_escapes.
  - intros e He. rewrite Hcall. unfold read_event_stream.
    rewrite Hread, He. cbn [bind try_except]. unfold surfaced.
    now destruct (is_RequestException e).
Qed.

End ClientProperties.

(** ** The properties on the examples *)

Lemma tool_result_content (items : list pyval) :
  has_content (tool_result items) items.
Proof. reflexivity. Qed.

Lemma text_item_textual (t : string) :
  textual (text_item t) t.
Proof. split; reflexivity. Qed.





(** The statement search on a raw text followed by a JSON statement and
    another raw text; and on a raw text followed by the JSON number 42, on
    which the look for a statement raises. *)
Lemma extract_statement_scan_witness :
  (extract_statement (rt := further_runtime)
     (tool_result [text_item "SELECT 1"; text_item doc_statement; text_item "SELECT 2"])
   = Ok (PStr "SELECT COUNT(*) FROM t") /\
   exists d,
     parse_analyst_result (rt := further_runtime)
       (tool_result [text_item "SELECT 1"; text_item doc_statement; text_item "SELECT 2"])
       "how many?" = Ok (PDict d) /\
     Py.dict_get "sql_query" d = Some (PStr "SELECT COUNT(*) FROM t") /\
     Py.dict_get "query_type" d = Some (PStr "count") /\
     Py.dict_get "error" d = None) /\
  (extract_statement (rt := further_runtime)
     (tool_result [text_item "SELECT 1"; text_item doc_number])
   = Raise (TypeError "in" (PInt 42)) /\
   exists d,
     parse_analyst_result (rt := further_runtime)
       (tool_result [text_item "SELECT 1"; text_item doc_number]) "how many?"
     = Ok (PDict d) /\
     Py.dict_get "error" d = Some (PStr "TypeError") /\
     Py.dict_get "executed" d = Some (PBool false) /\
     Py.dict_get "query_type" d = None).
Proof.
  split.
  2:{ destruct (@extract_statement_scan further_runtime
                  (tool_result [text_item "SELECT 1"; text_item doc_number])
                  [text_item "SELECT 1"; text_item doc_number]
                  "how many?" eq_refl)
        as [_ Hkinds].
      destruct (Hkinds [RawText (PStr "SELECT 1"); Fails (TypeError "in" (PInt 42))])
        as [Hscan [_ Herr]].
      - apply Forall2_cons; [|apply Forall2_cons; [|apply Forall2_nil]].
        + eapply kind_raw; [split|]; reflexivity.
        + eapply kind_not_a_container; [split| |]; reflexivity.
      - split; [exact Hscan|].
        exact (Herr (TypeError "in" (PInt 42)) eq_refl). }
  destruct (@extract_statement_scan further_runtime
              (tool_result [text_item "SELECT 1"; text_item doc_statement;
                            text_item "SELECT 2"])
              [text_item "SELECT 1"; text_item doc_statement; text_item "SELECT 2"]
              "how many?" eq_refl)
    as [_ Hkinds].
  destruct (Hkinds [RawText (PStr "SELECT 1"); Statement (PStr "SELECT COUNT(*) FROM t");
                    RawText (PStr "SELECT 2")])
    as [Hscan [Hout _]].
  - apply Forall2_cons; [|apply Forall2_cons; [|apply Forall2_cons; [|apply Forall2_nil]]].
    + eapply kind_raw; [split|]; reflexivity.
    + eapply kind_statement; [split| | |]; reflexivity.
    + eapply kind_raw; [split|]; reflexivity.
  - split; [exact Hscan|].
    exact (Hout "SELECT COUNT(*) FROM t" eq_refl eq_refl).
Defined.

(** C6, as stated, fails: the text of the first textual item is not JSON,
    yet the statement is the raw text of the second item. *)
Lemma later_raw_text_replaces_first :
  json_loads (Runtime := sample_runtime) "SELECT 1"
    = Raise (JSONDecodeError "SELECT 1") /\
  exists d,
    parse_analyst_result (rt := sample_runtime)
      (tool_result [text_item "SELECT 1"; text_item "SELECT 2"]) "q" = Ok (PDict d) /\
    Py.dict_get "sql_query" d = Some (PStr "SELECT 2") /\
    Py.dict_get "sql_query" d <> Some (PStr "SELECT 1").
Proof.
  split; [reflexivity|]. eexists. repeat split. discriminate.
Qed.

(** The row count of the example of the specification. *)
Lemma parse_sql_result_row_count_witness :
  exists d rows,
    parse_sql_result (rt := sample_runtime) (tool_result [text_item doc_table]) "q"
      = Ok (PDict d) /\
    Py.dict_get "execution_results" d = Some (PList rows) /\
    Py.dict_get "row_count" d = Some (PInt 2) /\
    List.length rows = 2%nat.
Proof.
  destruct (@parse_sql_result_row_count sample_runtime
              (tool_result [text_item doc_table]) "q"
              (sql_success "q"
                 [obj [("name", PStr "a"); ("val", PInt 1)];
                  obj [("name", PStr "b"); ("val", PInt 2)]]
                 (obj [("columns", PList [PStr "name"; PStr "val"]);
                       ("num_rows", PInt 0)]))
              eq_refl) as [Hcall [d [rows [Hd [Hrows [Hcount _]]]]]].
  exists d, rows. rewrite Hcall, Hd.
  split; [reflexivity|]. split; [exact Hrows|].
  injection Hd as <-. injection Hrows as <-. split; reflexivity.
Defined.

(** A result that is not a dictionary: the [TypeError] of ['content' in 5]
    ends up in the 'error' field. *)
Lemma interpreters_never_raise_witness :
  exists d,
    parse_sql_result (rt := sample_runtime) (PInt 5) "q" = Ok (PDict d) /\
    Py.dict_get "error" d
      = Some (PStr (str_exn (rt := sample_runtime) (TypeError "in" (PInt 5)))) /\
    Py.dict_get "executed" d = Some (PBool false).
Proof.
  destruct (@interpreters_never_raise sample_runtime (PInt 5) "q")
    as [_ [[d [Hcall Herr]] _]].
  exists d. split; [exact Hcall|].
  split; [exact (Herr (TypeError "in" (PInt 5)) eq_refl)|].
  injection Hcall as <-. reflexivity.
Defined.

(** Two data lines, of which only the second is JSON: the call returns what
    the second line carries. *)
Lemma event_stream_last_payload_witness :
  _make_rpc_call (rt := sample_runtime) (fun _ => Ok stream_response)
    "tools/list" PNone
  = Ok (obj [("tools", PList [])]).
Proof.
  destruct (@event_stream_last_payload sample_runtime (fun _ => Ok stream_response)
              "tools/list" PNone stream_response
              [NoPayload; NoPayload;
               Payload (obj [("result", obj [("tools", PList [])])])]
              eq_refl eq_refl eq_refl)
    as [_ [Hend _]].
  - apply Forall2_cons; [|apply Forall2_cons; [|apply Forall2_cons; [|apply Forall2_nil]]].
    + apply (@reads_undecodable sample_runtime _ "{partial" "{partial");
        [|reflexivity].
      exists "", "". repeat split.
    + apply reads_no_data. intros suffix [pre [post [H _]]].
      destruct pre; discriminate H.
    + apply (@reads_payload sample_runtime _ doc_tools); [|reflexivity].
      exists "", "". repeat split.
  - destruct (Hend eq_refl) as [_ Hlast].
    exact (Hlast [] (obj [("result", obj [("tools", PList [])])]) eq_refl).
Defined.

(** C3, as stated, fails.  A first data line whose payload is an integer of
    4301 digits makes [json.loads] raise a [ValueError], which the loop does
    not take: the call raises it, although the second data line carries a
    valid answer.  And a stream that breaks after a data line with a valid
    answer makes the call raise the request failure, not return the
    answer. *)
Lemma later_payload_is_not_reached :
  json_loads (Runtime := further_runtime) doc_tools
    = Ok (obj [("result", obj [("tools", PList [])])]) /\
  _make_rpc_call (rt := further_runtime) (fun _ => Ok long_integer_response)
    "tools/list" PNone
  = Raise (ValueError long_integer_message) /\
  _make_rpc_call (rt := further_runtime) (fun _ => Ok broken_stream_response)
    "tools/list" PNone
  = Raise (PyException "Request failed: Connection broken").
Proof. split; [|split]; vm_compute; reflexivity. Qed.

(** A 504 raises the HTTP error with its status and body text. *)
Lemma non_2xx_raises_transport_error_witness :
  _make_rpc_call (rt := sample_runtime) (fun _ => Ok timeout_response)
    "tools/call" PNone
  = Raise (PyException "HTTP 504: Gateway Time-out").
Proof.
  destruct (@non_2xx_raises_transport_error sample_runtime
              (fun _ => Ok timeout_response) "tools/call" PNone timeout_response
              eq_refl (or_intror eq_refl))
    as [Hread _].
  destruct (Hread "Gateway Time-out" eq_refl) as [Hcall _].
  exact Hcall.
Defined.

(** C4, as stated, fails: a 504 and a 500 whose body cannot be read raise
    one and the same exception, which carries neither the status code nor a
    body text. *)
Lemma unreadable_body_hides_status :
  _make_rpc_call (rt := sample_runtime) (fun _ => Ok (unreadable_response 504))
    "tools/call" PNone
  = Raise (PyException "Request failed: Connection broken") /\
  _make_rpc_call (rt := sample_runtime) (fun _ => Ok (unreadable_response 500))
    "tools/call" PNone
  = Raise (PyException "Request failed: Connection broken").
Proof. split; reflexivity. Qed.

(** The answer [{"error": "X"}] raises the remote error carrying "X". *)
Lemma unwrap_parsed_object_witness :
  _make_rpc_call (rt := sample_runtime) (fun _ => Ok error_response)
    "tools/call" PNone
  = Raise (PyException "MCP Error: X").
Proof.
  exact (@unwrap_parsed_object sample_runtime (fun _ => Ok error_response)
           "tools/call" PNone error_response
           [(PStr "error", PStr "X")] eq_refl eq_refl eq_refl).
Defined.

(** C5, as stated, fails: the error values "1" (a string) and 1 (a number)
    differ, yet the two answers raise one and the same exception; what the
    caller gets is the text of the value, not the value. *)
Lemma error_value_is_rendered :
  PStr "1" <> PInt 1 /\
  _make_rpc_call (rt := sample_runtime)
    (fun _ => Ok (json_response (obj [("error", PStr "1")]))) "tools/call" PNone
  = Raise (PyException "MCP Error: 1") /\
  _make_rpc_call (rt := sample_runtime)
    (fun _ => Ok (json_response (obj [("error", PInt 1)]))) "tools/call" PNone
  = Raise (PyException "MCP Error: 1").
Proof. split; [discriminate|split; reflexivity]. Qed.

(** A 201 with a well-formed answer in its body still raises the HTTP
    error. *)
Lemma non_200_raises_http_error_witness :
  _make_rpc_call (rt := sample_runtime) (fun _ => Ok created_response)
    "tools/list" PNone
  = Raise (PyException (String.append "HTTP 201: " doc_tools)).
Proof.
  refine (@non_200_raises_http_error sample_runtime (fun _ => Ok created_response)
            "tools/list" PNone 201%Z "application/json"
            {| yielded := []; broken := None |} (Ok doc_tools)
            (Ok (obj [("result", obj [("tools", PList [])])])) eq_refl _).
  discriminate.
Defined.

(** C8, as stated, fails: on a 201 the body is read, and when it cannot be
    read the call raises the request failure instead of the HTTP error. *)
Lemma non_200_reads_the_body :
  status_code (unreadable_response 201) = 201%Z /\
  _make_rpc_call (rt := sample_runtime) (fun _ => Ok (unreadable_response 201))
    "tools/list" PNone
  = Raise (PyException "Request failed: Connection broken") /\
  forall body,
    _make_rpc_call (rt := sample_runtime) (fun _ => Ok (unreadable_response 201))
      "tools/list" PNone
    <> Raise (http_error 201 body).
Proof.
  split; [reflexivity|]. split; [reflexivity|].
  intros body H. discriminate H.
Qed.

(** A query in capitals: the keywords are found whatever their case. *)
Lemma determine_query_type_total_witness :
  occurs_ignoring_case "count(" "SELECT COUNT(*) FROM t GROUP BY x" /\
  occurs_ignoring_case "group by" "SELECT COUNT(*) FROM t GROUP BY x" /\
  determine_query_type "SELECT COUNT(*) FROM t GROUP BY x" = "aggregation".
Proof.
  assert (Hcount : occurs_ignoring_case "count(" "SELECT COUNT(*) FROM t GROUP BY x").
  { exists "SELECT ", "COUNT(", "*) FROM t GROUP BY x".
    split; [reflexivity|].
    unfold matches_letter; simpl; repeat split;
      try (left; reflexivity); right; vm_compute; lia. }
  assert (Hgroup : occurs_ignoring_case "group by" "SELECT COUNT(*) FROM t GROUP BY x").
  { exists "SELECT COUNT(*) FROM t ", "GROUP BY", " x".
    split; [reflexivity|].
    unfold matches_letter; simpl; repeat split;
      try (left; reflexivity); right; vm_compute; lia. }
  split; [exact Hcount|]. split; [exact Hgroup|].
  destruct (determine_query_type_total "SELECT COUNT(*) FROM t GROUP BY x")
    as [_ [Hagg _]].
  apply Hagg. split; assumption.
Defined.

(** * Further properties *)

(** ** The client *)

Section ClientExtras.

Context {rt : Runtime}.

Variable session_post : pyval -> res response.

(** X1. Whatever the server does, [_make_rpc_call] never lets a
    [requests.RequestException] through: what the caller can catch is a plain
    exception. *)
Theorem rpc_call_raises_no_request_exception (method : string) (params : pyval)
    (detail : string) :
  _make_rpc_call session_post method params <> Raise (RequestException detail).
Proof.
  unfold _make_rpc_call, try_except.
  destruct (resp <- session_post (rpc_payload method params) ;; handle_response resp)
    as [v|e]; [discriminate|].
  destruct e; cbn [is_RequestException]; discriminate.
Qed.

(** X2. When the post itself fails, a [requests.RequestException] comes out
    as the exception 'Request failed: <its text>', and any other exception
    comes out as it is. *)
Theorem post_failure_is_wrapped (method : string) (params : pyval) (e : exn) :
  session_post (rpc_payload method params) = Raise e ->
  _make_rpc_call session_post method params
  = if is_RequestException e
    then Raise (PyException ("Request failed: " ++ str_exn e))
    else Raise e.
Proof.
  intros H. unfold _make_rpc_call. rewrite H. reflexivity.
Qed.

(** X3. On a 200 answer that is not an event stream and whose body is not
    JSON, so that [response.json()] raises a [requests.RequestException],
    the call raises 'Request failed: <its text>'. *)
Theorem invalid_json_body_is_request_failure (method : string) (params : pyval)
    (resp : response) (detail : string) :
  session_post (rpc_payload method params) = Ok resp ->
  status_code resp = 200%Z ->
  Str.contains "text/event-stream" (content_type resp) = false ->
  json resp = Raise (RequestException detail) ->
  _make_rpc_call session_post method params
  = Raise (PyException ("Request failed: " ++ exn_text (RequestException detail))).
Proof.
  intros Hpost Hs Hct Hj. unfold _make_rpc_call. rewrite Hpost. cbn [bind].
  unfold handle_response. rewrite Hs, Hct, Hj. reflexivity.
Qed.

(** X4. [list_tools] on an answer whose [result] is an object returns the
    value under [tools], and the empty list when that key is absent. *)
Theorem list_tools_default (resp : response) (d r : pydict) :
  session_post (rpc_payload "tools/list" PNone) = Ok resp ->
  status_code resp = 200%Z ->
  parsed_object resp d ->
  Py.dict_get "result" d = Some (PDict r) ->
  list_tools session_post
  = Ok (match Py.dict_get "tools" r with
        | Some tools => tools
        | None => PList []
        end).
Proof.
  intros Hpost Hs Hd Hr.
  assert (Hcall : _make_rpc_call session_post "tools/list" PNone = Ok (PDict r)).
  { unfold _make_rpc_call. rewrite Hpost. cbn [bind].
    unfold handle_response. rewrite Hs. cbn [Z.eqb Pos.eqb].
    unfold parsed_object in Hd.
    destruct (Str.contains "text/event-stream" (content_type resp)).
    - rewrite Hd. cbn [bind].
      rewrite unwrap_escapes, unwrap_object, Hr. reflexivity.
    - rewrite Hd. cbn [bind]. rewrite unwrap_escapes, unwrap_object, Hr.
      reflexivity. }
  unfold list_tools. rewrite Hcall. cbn [bind Py.get_default].
  destruct (Py.dict_get "tools" r); reflexivity.
Qed.

(** X5. Only data lines count in an event stream: dropping every line that,
    once stripped, does not start with 'data: ' (blank lines, comments,
    [event:] and [id:] fields) leaves the outcome of reading the stream
    unchanged. *)
Theorem event_stream_ignores_other_lines (body : stream) :
  read_event_stream body
  = read_event_stream
      {| yielded := filter (fun line => Str.startswith "data: " (Str.strip line))
                      (yielded body);
         broken := broken body |}.
Proof.
  unfold read_event_stream. cbn [yielded broken].
  assert (E : forall lines init,
    read_lines lines init
    = read_lines
        (filter (fun line => Str.startswith "data: " (Str.strip line)) lines) init).
  { induction lines as [|line lines IH]; intros init; [reflexivity|].
    cbn [filter read_lines].
    destruct (Str.startswith "data: " (Str.strip line)) eqn:E.
    - cbn [read_lines]. destruct (sse_line init line); [|reflexivity].
      cbn [bind]. apply IH.
    - rewrite <- IH.
      assert (H : sse_line init line = Ok init).
      { unfold sse_line. rewrite E. now destruct (Str.nonempty line). }
      now rewrite H. }
  now rewrite <- E.
Qed.

End ClientExtras.

Lemma rstrip_keeps_nonspace (c : ascii) (s : string) :
  Str.is_space c = false -> Str.rstrip (String c s) = String c (Str.rstrip s).
Proof.
  intros H. cbn [Str.rstrip]. rewrite H. now destruct (Str.rstrip s).
Qed.

Lemma rstrip_first (c : ascii) (s : string) :
  Str.rstrip (String c s) = EmptyString \/
  exists r, Str.rstrip (String c s) = String c r.
Proof.
  cbn [Str.rstrip]. destruct (Str.rstrip s) as [|c' r].
  - destruct (Str.is_space c); [left|right; eexists]; reflexivity.
  - right. eexists. reflexivity.
Qed.

Section StreamExtras.

Context {rt : Runtime}.

(** X6. A data line needs the blank after the colon: a line 'data:' directly
    followed by its payload is not taken as a data line, and the candidate
    result stays what it was. *)
Theorem data_line_needs_blank (result : pyval) (payload : string) :
  Str.startswith " " payload = false ->
  sse_line result ("data:" ++ payload) = Ok result.
Proof.
  intros H. unfold sse_line. cbn [Str.nonempty String.append].
  assert (E : Str.startswith "data: "
                (Str.strip (String "d" (String "a" (String "t" (String "a"
                   (String ":" payload)))))) = false).
  { unfold Str.strip. cbn [Str.lstrip].
    change (Str.is_space "d") with false. cbv iota.
    rewrite !rstrip_keeps_nonspace by reflexivity.
    cbn [Str.startswith]. 
    change (Ascii.eqb "d" "d") with true. change (Ascii.eqb "a" "a") with true.
    change (Ascii.eqb "t" "t") with true. change (Ascii.eqb ":" ":") with true.
    cbn [andb].
    destruct payload as [|c p]; [reflexivity|].
    destruct (rstrip_first c p) as [-> | [r ->]]; [reflexivity|].
    cbn [Str.startswith]. cbn [Str.startswith] in H.
    rewrite andb_true_r in *. exact H. }
  now rewrite E.
Qed.

End StreamExtras.

(** ** The interpreters *)

Section InterpreterExtras.

Context {rt : Runtime}.

Lemma lacks_content_items (result : pyval) :
  lacks_content result -> content_items result = Ok None.
Proof.
  intros [d [-> [H | [v [H Hv]]]]]; unfold content_items.
  - now rewrite (contains_dict_none _ _ H).
  - rewrite (contains_dict _ _ H). cbn [bind].
    rewrite (getitem_dict _ _ H). cbn [bind].
    destruct v; try reflexivity. discriminate.
Qed.

(** X7. On a result without a content list the three interpreters differ:
    [parse_sql_result] reports a successful execution with no rows,
    [parse_analyst_result] reports the error 'No SQL statement found in
    response', and [parse_agent_result] answers with the stripped text of
    the whole result. *)
Theorem interpreters_without_content (result : pyval) (request : string) :
  lacks_content result ->
  parse_sql_result result request = Ok (sql_success request [] PNone) /\
  parse_analyst_result result request
  = Ok (obj [("type", PStr "analysis");
             ("sql_query", PNone);
             ("explanation", PStr ("Generated analysis for: " ++ request));
             ("executed", PBool false);
             ("error", PStr "No SQL statement found in response")]) /\
  parse_agent_result result request
  = Ok (obj [("type", PStr "agent_response");
             ("message", PStr request);
             ("response", PStr (Str.strip (py_str result)));
             ("execution_note", PStr "Response generated by SEC Filing Agent.")]).
Proof.
  intros H. apply lacks_content_items in H. split; [|split].
  - apply sql_body_success with (m := None). unfold sql_scan. now rewrite H.
  - unfold parse_analyst_result, analyst_body, extract_statement. now rewrite H.
  - unfold parse_agent_result, agent_body. now rewrite H.
Qed.

Lemma sql_item_adds (item : pyval) (rows : list pyval) :
  sql_adds item rows ->
  forall acc m, sql_item (acc, m) item = Ok (Next ((acc ++ rows)%list, m)).
Proof.
  intros [Hn | t detail [Ht Hg] Hj | t j Ht Hj Hrs] acc m.
  - unfold sql_item. rewrite Hn. cbn [bind]. now rewrite app_nil_r.
  - unfold sql_item. rewrite Ht. cbn [bind]. rewrite Hg. cbn [bind].
    now rewrite (loads_fails _ Hj).
  - apply (sql_item_response _ Ht Hj). unfold sql_response.
    now rewrite (contains_dict_none _ _ Hrs).
Qed.

Lemma sql_loop_adds (items : list pyval) (added : list (list pyval)) :
  Forall2 sql_adds items added ->
  forall acc m,
    for_each sql_item items (acc, m) = Ok ((acc ++ List.concat added)%list, m).
Proof.
  induction 1 as [|item rows items added Hi _ IH]; intros acc m.
  - simpl. now rewrite app_nil_r.
  - cbn [for_each]. rewrite (sql_item_adds Hi). cbn [bind].
    rewrite IH. cbn [List.concat]. now rewrite app_assoc.
Qed.

(** X8. Content items without a result set add up in order: an item that is
    not textual adds nothing, a text that is not JSON adds the row
    [{'result': text}], and a JSON object without [result_set] is itself
    added as a row; the rows returned are these, one after the other, with no
    metadata. *)
Theorem parse_sql_result_plain_items (result : pyval) (items : list pyval)
    (added : list (list pyval)) (q : string) :
  has_content result items ->
  Forall2 sql_adds items added ->
  parse_sql_result result q = Ok (sql_success q (List.concat added) PNone).
Proof.
  intros Hc Ha. apply sql_body_success with (m := None).
  unfold sql_scan. rewrite Hc. cbn [bind].
  now rewrite (sql_loop_adds Ha).
Qed.


Lemma sql_response_named (acc : list pyval) (m0 : option metadata)
    (payload rs : pydict) (names : list string) (n : pyval) (data : list pyval) :
  Py.dict_get "result_set" payload = Some (PDict rs) ->
  read_metadata (PDict rs) m0
    = Ok (Some {| columns := map PStr names; num_rows := n |}) ->
  names <> [] ->
  Py.dict_get "data" rs = Some (PList data) ->
  sql_response (acc, m0) (PDict payload)
  = Ok ((acc ++ map (fun cells => PDict (zip_columns names cells))
                    (rows_of_width (List.length names) data))%list,
        Some {| columns := map PStr names; num_rows := n |}).
Proof.
  intros Hrs Hmeta Hne Hdata. unfold sql_response.
  rewrite (contains_dict _ _ Hrs). cbn [bind].
  rewrite (getitem_dict _ _ Hrs). cbn [bind].
  rewrite Hmeta. cbn [bind].
  rewrite (contains_dict _ _ Hdata). cbn [bind].
  rewrite (getitem_dict _ _ Hdata). cbn [bind columns].
  destruct names as [|name names]; [contradiction|].
  change (map PStr (name :: names)) with (PStr name :: map PStr names) at 1.
  cbv iota. change (PStr name :: map PStr names) with (map PStr (name :: names)).
  rewrite named_rows_spec. reflexivity.
Qed.

(** X9. Column metadata stays in force from one content item to the next: a
    later result set without [resultSetMetaData.rowType] (no
    [resultSetMetaData], or one that is an object, a list or a string not
    containing ['rowType']) is read under the column names of the earlier
    item, its rows of another width are left out, and no synthetic names are
    used. *)
Theorem metadata_carries_over (result first second : pyval) (t1 t2 : string)
    (payload1 rs1 payload2 rs2 : pydict) (names : list string)
    (data1 data2 : list pyval) (q : string) :
  has_content result [first; second] ->
  textual first t1 ->
  json_loads t1 = Ok (PDict payload1) ->
  Py.dict_get "result_set" payload1 = Some (PDict rs1) ->
  result_set_with_columns rs1 names data1 ->
  names <> [] ->
  textual second t2 ->
  json_loads t2 = Ok (PDict payload2) ->
  Py.dict_get "result_set" payload2 = Some (PDict rs2) ->
  result_set_without_columns rs2 data2 ->
  exists n,
    parse_sql_result result q
    = Ok (sql_success q
            (map (fun cells => PDict (zip_columns names cells))
                 (rows_of_width (List.length names) data1 ++
                  rows_of_width (List.length names) data2))
            (obj [("columns", PList (map PStr names)); ("num_rows", n)])).
Proof.
  intros Hc Ht1 Hj1 Hrs1 Hcols Hne Ht2 Hj2 Hrs2 Hbare.
  destruct (read_metadata_columns Hcols) as [n Hmeta]. exists n.
  apply sql_body_success
    with (m := Some {| columns := map PStr names; num_rows := n |}).
  unfold sql_scan. rewrite Hc. cbn [bind for_each].
  assert (Hdata1 : Py.dict_get "data" rs1 = Some (PList data1))
    by (destruct Hcols as [? [? [_ [_ [_ H]]]]]; exact H).
  assert (Hdata2 : Py.dict_get "data" rs2 = Some (PList data2))
    by (destruct Hbare as [_ H]; exact H).
  pose proof (@sql_response_named [] None payload1 rs1 names n data1
                Hrs1 (Hmeta None) Hne Hdata1) as R1.
  cbn [List.app] in R1.
  rewrite (sql_item_response _ Ht1 Hj1 R1). cbn [bind].
  pose proof (@sql_response_named
                (map (fun cells => PDict (zip_columns names cells))
                     (rows_of_width (List.length names) data1))
                (Some {| columns := map PStr names; num_rows := n |})
                payload2 rs2 names n data2
                Hrs2 (read_metadata_absent _ Hbare) Hne Hdata2) as R2.
  rewrite (sql_item_response _ Ht2 Hj2 R2). cbn [bind].
  now rewrite map_app.
Qed.

(** X10. Column metadata that names no column (an empty [rowType]) does not
    make the rows disappear: every row that is a list is read under the
    synthetic names [column_0], [column_1], ..., and the metadata returned
    has an empty column list. *)
Theorem empty_row_type_gives_synthetic_names (result item : pyval) (t : string)
    (payload rs : pydict) (data : list pyval) (q : string) :
  has_content result [item] ->
  textual item t ->
  json_loads t = Ok (PDict payload) ->
  Py.dict_get "result_set" payload = Some (PDict rs) ->
  result_set_with_columns rs [] data ->
  exists n,
    parse_sql_result result q
    = Ok (sql_success q
            (map (fun cells => PDict (synthetic_columns cells)) (list_rows data))
            (obj [("columns", PList []); ("num_rows", n)])).
Proof.
  intros Hc Ht Hj Hrs Hcols.
  destruct (read_metadata_columns Hcols) as [n Hmeta]. exists n.
  apply sql_body_success with (m := Some {| columns := []; num_rows := n |}).
  apply (sql_scan_single Hc). apply (sql_item_response _ Ht Hj).
  destruct Hcols as [md [cols [_ [_ [_ Hdata]]]]].
  unfold sql_response.
  rewrite (contains_dict _ _ Hrs). cbn [bind].
  rewrite (getitem_dict _ _ Hrs). cbn [bind].
  rewrite (Hmeta None). cbn [bind map].
  rewrite (contains_dict _ _ Hdata). cbn [bind].
  rewrite (getitem_dict _ _ Hdata). cbn [bind columns].
  now rewrite generic_rows_spec.
Qed.

(** X11. When the search of [parse_analyst_result] ends on a statement that
    is empty in Python's sense (no statement at all, or a JSON [statement]
    that is null, '', 0, [] or {}), the structure returned carries the error
    'No SQL statement found in response' and no query. *)
Theorem empty_statement_is_not_found (result : pyval) (items : list pyval)
    (kinds : list item_kind) (query : string) (v : pyval) :
  has_content result items ->
  Forall2 has_kind items kinds ->
  chosen_statement kinds PNone = Ok v ->
  Py.truthy v = false ->
  parse_analyst_result result query
  = Ok (obj [("type", PStr "analysis");
             ("sql_query", PNone);
             ("explanation", PStr ("Generated analysis for: " ++ query));
             ("executed", PBool false);
             ("error", PStr "No SQL statement found in response")]).
Proof.
  intros Hc Hk Hv Hf.
  unfold parse_analyst_result, analyst_body, extract_statement.
  rewrite Hc. cbn [bind]. rewrite (analyst_scan_kinds Hk), Hv. cbn [bind].
  rewrite Hf. reflexivity.
Qed.

(** X12. A JSON [statement] that is not a string but counts as true (a
    number, a non-empty list or object) is not returned as a query: stripping
    it raises, and the structure returned carries that error and, as
    'sql_query', the text of the whole result. *)
Theorem non_string_statement_is_an_error (result : pyval) (items : list pyval)
    (kinds : list item_kind) (query : string) (v : pyval) :
  has_content result items ->
  Forall2 has_kind items kinds ->
  chosen_statement kinds PNone = Ok v ->
  Py.truthy v = true ->
  (forall s, v <> PStr s) ->
  parse_analyst_result result query
  = Ok (obj [("type", PStr "analysis");
             ("sql_query", PStr (py_str result));
             ("explanation", PStr ("Analysis for: " ++ query));
             ("executed", PBool false);
             ("error", PStr (exn_text (AttributeError v "strip")))]).
Proof.
  intros Hc Hk Hv Ht Hs.
  unfold parse_analyst_result, analyst_body, extract_statement.
  rewrite Hc. cbn [bind]. rewrite (analyst_scan_kinds Hk), Hv. cbn [bind].
  rewrite Ht. cbn [negb].
  destruct v; try reflexivity. now destruct (Hs s).
Qed.

Lemma append_empty (s : string) : s ++ "" = s.
Proof. induction s as [|c s IH]; [reflexivity|]. simpl. now rewrite IH. Qed.

Lemma append_assoc (a b c : string) : (a ++ b) ++ c = a ++ (b ++ c).
Proof. induction a as [|x a IH]; [reflexivity|]. simpl. now rewrite IH. Qed.

Lemma concat_cons (piece : string) (pieces : list string) :
  String.concat "" (piece :: pieces) = piece ++ String.concat "" pieces.
Proof.
  destruct pieces as [|p pieces]; [|reflexivity].
  simpl. now rewrite append_empty.
Qed.

Lemma agent_item_adds (item : pyval) (piece : string) :
  agent_adds item piece ->
  forall acc, agent_item acc item = Ok (Next (acc ++ piece)).
Proof.
  intros [Hn | t [Ht Hg]] acc; unfold agent_item.
  - rewrite Hn. cbn [bind]. now rewrite append_empty.
  - rewrite Ht. cbn [bind]. rewrite Hg. reflexivity.
Qed.

Lemma agent_loop_adds (items : list pyval) (pieces : list string) :
  Forall2 agent_adds items pieces ->
  forall acc,
    for_each agent_item items acc = Ok (acc ++ String.concat "" pieces).
Proof.
  induction 1 as [|item piece items pieces Hi Hrest IH]; intros acc.
  - cbn [for_each String.concat]. now rewrite append_empty.
  - cbn [for_each]. rewrite (agent_item_adds Hi). cbn [bind]. rewrite IH.
    now rewrite append_assoc, concat_cons.
Qed.

(** X13. [parse_agent_result] answers with the texts of the textual items,
    each followed by a line break, joined in order and stripped as a whole;
    items that are not textual add nothing, and when nothing was added the
    answer is the stripped text of the whole result. *)
Theorem parse_agent_result_joins_texts (result : pyval) (items : list pyval)
    (pieces : list string) (message : string) :
  has_content result items ->
  Forall2 agent_adds items pieces ->
  parse_agent_result result message
  = Ok (obj [("type", PStr "agent_response");
             ("message", PStr message);
             ("response",
              PStr (Str.strip
                      (if Str.nonempty (String.concat "" pieces)
                       then String.concat "" pieces
                       else py_str result)));
             ("execution_note", PStr "Response generated by SEC Filing Agent.")]).
Proof.
  intros Hc Ha. unfold parse_agent_result, agent_body.
  rewrite Hc. cbn [bind]. rewrite (agent_loop_adds Ha). cbn [bind String.append].
  now destruct (Str.nonempty (String.concat "" pieces)).
Qed.

(** X14. A first content item that is textual but whose text is not a
    string is not skipped: it makes each interpreter give up on the whole
    result and return its error structure, whatever the later items are. *)
Theorem non_string_text_fails_interpretation (result item : pyval)
    (rest : list pyval) (v : pyval) (request : string) :
  has_content result (item :: rest) ->
  is_text_item item = Ok true ->
  Py.getitem item "text" = Ok v ->
  (forall s, v <> PStr s) ->
  parse_sql_result result request
  = Ok (obj [("type", PStr "sql_execution");
             ("sql_query", PStr request);
             ("executed", PBool false);
             ("error", PStr (exn_text (TypeError "json.loads" v)));
             ("execution_results", PList [])]) /\
  parse_analyst_result result request
  = Ok (obj [("type", PStr "analysis");
             ("sql_query", PStr (py_str result));
             ("explanation", PStr ("Analysis for: " ++ request));
             ("executed", PBool false);
             ("error", PStr (exn_text (TypeError "json.loads" v)))]) /\
  parse_agent_result result request
  = Ok (obj [("type", PStr "agent_response");
             ("message", PStr request);
             ("response",
              PStr ("Error processing agent response: "
                    ++ exn_text (TypeError "add" v)));
             ("error", PStr (exn_text (TypeError "add" v)))]).
Proof.
  intros Hc Ht Hg Hs.
  assert (Hl : loads v = Raise (TypeError "json.loads" v)).
  { destruct v; try reflexivity. now destruct (Hs s). }
  assert (Ha : Py.add_str v newline = Raise (TypeError "add" v)).
  { destruct v; try reflexivity. now destruct (Hs s). }
  split; [|split].
  - unfold parse_sql_result, sql_body, sql_scan. rewrite Hc.
    cbn [bind for_each]. unfold sql_item. rewrite Ht. cbn [bind].
    rewrite Hg. cbn [bind]. rewrite Hl. reflexivity.
  - unfold parse_analyst_result, analyst_body, extract_statement. rewrite Hc.
    cbn [bind for_each]. unfold analyst_item. rewrite Ht. cbn [bind].
    rewrite Hg. cbn [bind]. rewrite Hl. reflexivity.
  - unfold parse_agent_result, agent_body. rewrite Hc.
    cbn [bind for_each]. unfold agent_item. rewrite Ht. cbn [bind].
    rewrite Hg. cbn [bind]. rewrite Ha. reflexivity.
Qed.

End InterpreterExtras.

(** ** Tool discovery *)


Section DiscoveryExtras.

Context {rt : Runtime}.

Variable session_post : pyval -> res response.
Variable now : string.

Lemma discover_tool_described (tool : pyval) (d : descriptor) (s a q g : pyval) :
  describes tool d ->
  discover_tool (capabilities s a q g) tool
  = Ok (Next (capabilities (entry_after Search d s) (entry_after Analyst d a)
                           (entry_after Sql d q) (entry_after Agent d g))).
Proof.
  intros [Hn [Hd [schema [Hs Hp]]]].
  unfold discover_tool. rewrite Hn. cbn [bind]. rewrite Hd. cbn [bind].
  rewrite Hs. cbn [bind]. rewrite Hp.
  cbn [bind Py.contains and_then or_then py_lower].
  unfold entry_after, filed_under, bucket_of.
  destruct (Py.dict_has "query" (given_properties d));
    destruct (Py.dict_has "columns" (given_properties d));
    destruct (Py.dict_has "message" (given_properties d));
    destruct (Str.contains "semantic" (Str.lower (given_description d)));
    destruct (Py.dict_has "sql" (given_properties d));
    destruct (Py.dict_has "text" (given_properties d));
    destruct (Str.contains "agent" (Str.lower (given_description d)));
    destruct (Str.contains "agent" (Str.lower (given_name d)));
    reflexivity.
Qed.






Ltac split_bind H :=
  match type of H with
  | bind ?m _ = Ok _ =>
      let E := fresh "E" in
      destruct m eqn:E; cbn [bind] in H; [|discriminate H]
  | (if ?b then _ else _) = Ok _ => destruct b
  end.

Lemma discover_tool_entries (tool : pyval) (s a q g : pyval) (f : flow pydict) :
  entry_ok s -> entry_ok a -> entry_ok q -> entry_ok g ->
  discover_tool (capabilities s a q g) tool = Ok f ->
  exists s' a' q' g',
    f = Next (capabilities s' a' q' g') /\
    entry_ok s' /\ entry_ok a' /\ entry_ok q' /\ entry_ok g'.
Proof.
  intros Hs Ha Hq Hg H. unfold discover_tool in H.
  repeat split_bind H; injection H as <-;
    do 4 eexists; (split; [reflexivity|]);
    repeat split; try assumption; right; do 3 eexists; reflexivity.
Qed.

Lemma discover_loop_entries (tools : list pyval) :
  forall s a q g caps,
    entry_ok s -> entry_ok a -> entry_ok q -> entry_ok g ->
    for_each discover_tool tools (capabilities s a q g) = Ok caps ->
    exists s' a' q' g',
      caps = capabilities s' a' q' g' /\
      entry_ok s' /\ entry_ok a' /\ entry_ok q' /\ entry_ok g'.
Proof.
  induction tools as [|tool tools IH]; intros s a q g caps Hs Ha Hq Hg H.
  - injection H as <-. exists s, a, q, g. auto.
  - cbn [for_each] in H.
    destruct (discover_tool (capabilities s a q g) tool) as [f|e] eqn:E;
      [|discriminate H].
    cbn [bind] in H.
    destruct (discover_tool_entries _ Hs Ha Hq Hg E)
      as [s' [a' [q' [g' [-> [Hs' [Ha' [Hq' Hg']]]]]]]].
    exact (IH _ _ _ _ _ Hs' Ha' Hq' Hg' H).
Qed.

Lemma rebind_entry (caps : pydict) (key : string) (v current : pyval) :
  Py.dict_get key caps = Some v -> entry_ok v ->
  exists name, rebind caps key current = Ok name.
Proof.
  intros H Hv. unfold rebind. rewrite (getitem_dict _ _ H). cbn [bind].
  destruct Hv as [-> | [n [d [k ->]]]]; eexists; reflexivity.
Qed.

(** X16. [discover_tools] never raises, and a discovery that fails changes
    nothing: the reply is either a 200 with 'success' true, or a 500 with
    'success' false and every capability empty, and in the second case the
    module-level tool names are exactly what they were. *)
Theorem discover_tools_fails_cleanly (names : tool_names) :
  exists body status names',
    Api.discover_tools session_post now names = (Ok (PDict body, status), names') /\
    ((status = 200%Z /\ Py.dict_get "success" body = Some (PBool true)) \/
     (status = 500%Z /\ names' = names /\
      Py.dict_get "success" body = Some (PBool false) /\
      Py.dict_get "capabilities" body = Some (PDict no_capabilities))).
Proof.
  unfold Api.discover_tools, Api.discover_body.
  destruct (Api.discover_scan session_post) as [caps|e] eqn:E.
  - unfold Api.discover_scan in E.
    destruct (list_tools session_post) as [tools|e]; [|discriminate E].
    cbn [bind] in E.
    destruct (Py.iter tools) as [items|e]; [|discriminate E].
    cbn [bind] in E.
    change no_capabilities with (capabilities PNone PNone PNone PNone) in E.
    assert (N : entry_ok PNone) by now left.
    destruct (discover_loop_entries _ N N N N E)
      as [s [a [q [g [-> [Hs [Ha [Hq Hg]]]]]]]].
    unfold rebind_all.
    destruct (@rebind_entry (capabilities s a q g) "search" s
                (MCP_SEARCH_TOOL names) eq_refl Hs) as [n1 ->].
    cbn [MCP_SEARCH_TOOL MCP_ANALYST_TOOL MCP_SQL_TOOL MCP_AGENT_TOOL].
    destruct (@rebind_entry (capabilities s a q g) "analyst" a
                (MCP_ANALYST_TOOL names) eq_refl Ha) as [n2 ->].
    cbn [MCP_SEARCH_TOOL MCP_ANALYST_TOOL MCP_SQL_TOOL MCP_AGENT_TOOL].
    destruct (@rebind_entry (capabilities s a q g) "sql" q
                (MCP_SQL_TOOL names) eq_refl Hq) as [n3 ->].
    cbn [MCP_SEARCH_TOOL MCP_ANALYST_TOOL MCP_SQL_TOOL MCP_AGENT_TOOL].
    destruct (@rebind_entry (capabilities s a q g) "agent" g
                (MCP_AGENT_TOOL names) eq_refl Hg) as [n4 ->].
    do 3 eexists. split; [reflexivity|]. left. split; reflexivity.
  - do 3 eexists. split; [reflexivity|]. right. repeat split.
Qed.

(** X17. One tool can spoil the discovery of all: a tool with a [message]
    property whose description is present but not a string (a JSON null,
    say) makes [lower] raise, and the reply is the 500 with every capability
    empty and the tool names unchanged, although the tools before it were
    filed. *)
Theorem non_string_description_aborts_discovery (names : tool_names)
    (before after : list pyval) (ds : list descriptor) (bad name description : pyval)
    (schema : pyval) (properties : pydict) :
  list_tools session_post = Ok (PList (before ++ bad :: after)) ->
  Forall2 describes before ds ->
  Py.get_default bad "name" (PStr "") = Ok name ->
  Py.get_default bad "description" (PStr "") = Ok description ->
  (forall s, description <> PStr s) ->
  Py.get_default bad "inputSchema" (PDict []) = Ok schema ->
  Py.get_default schema "properties" (PDict []) = Ok (PDict properties) ->
  Py.dict_has "query" properties && Py.dict_has "columns" properties = false ->
  Py.dict_has "message" properties = true ->
  Api.discover_tools session_post now names
  = (Ok (obj [("success", PBool false);
              ("error", PStr (exn_text (AttributeError description "lower")));
              ("capabilities", PDict no_capabilities);
              ("timestamp", PStr now)], 500%Z),
     names).
Proof.
  intros Hl Hd Hn Hdesc Hs Hsch Hp Hq Hm.
  assert (Hbad : forall caps,
    discover_tool caps bad = Raise (AttributeError description "lower")).
  { intros caps. unfold discover_tool. rewrite Hn. cbn [bind].
    rewrite Hdesc. cbn [bind]. rewrite Hsch. cbn [bind]. rewrite Hp.
    cbn [bind Py.contains and_then].
    destruct (Py.dict_has "query" properties); cbn [bind];
      [cbn [andb] in Hq; rewrite Hq|]; cbn [bind]; rewrite Hm; cbn [bind];
      (destruct description; try reflexivity; now destruct (Hs s)). }
  assert (Hloop : forall tools ds', Forall2 describes tools ds' ->
    forall s a q g,
      for_each discover_tool (tools ++ bad :: after) (capabilities s a q g)
      = Raise (AttributeError description "lower")).
  { induction 1 as [|tool d tools ds' Ht _ IH]; intros s a q g.
    - cbn [List.app for_each]. now rewrite Hbad.
    - cbn [List.app for_each]. rewrite (discover_tool_described s a q g Ht).
      cbn [bind]. apply IH. }
  unfold Api.discover_tools, Api.discover_body, Api.discover_scan.
  rewrite Hl. cbn [bind Py.iter].
  change no_capabilities with (capabilities PNone PNone PNone PNone) at 1.
  rewrite (Hloop _ _ Hd). reflexivity.
Qed.

End DiscoveryExtras.

(** ** The routes *)

Section RouteExtras.

Context {rt : Runtime}.

Variable session_post : pyval -> res response.
Variable now : string.

Lemma get_default_field (request : pydict) (key : string) (default : pyval) :
  Py.get_default (PDict request) key default = Ok (field key default request).
Proof.
  unfold field. cbn [Py.get_default].
  now destruct (Py.dict_get key request).
Qed.


Lemma parse_analyst_result_returns (result : pyval) (query : string) :
  exists out, parse_analyst_result result query = Ok (PDict out).
Proof.
  unfold parse_analyst_result, try_except.
  destruct (analyst_body result query) as [out|e] eqn:E.
  - unfold analyst_body in E.
    destruct (extract_statement result) as [s|e]; [|discriminate].
    cbn [bind] in E.
    destruct (negb (Py.truthy s)).
    + injection E as <-. eexists. reflexivity.
    + destruct (Py.strip s) as [s'|e]; [|discriminate].
      injection E as <-. eexists. reflexivity.
  - eexists. reflexivity.
Qed.

(** X19. Once the analyst tool has answered, [analyze_data] replies 200 with
    'success' true whatever the answer looks like: its 'results' are what
    [parse_analyst_result] makes of the answer, so a failed interpretation
    shows as an 'error' inside the results, never as a 500. *)
Theorem analyze_data_reports_interpretation (names : tool_names)
    (request : pydict) (result : pyval) :
  let message := field "message" (PStr "") request in
  Py.truthy message = true ->
  call_tool session_post (MCP_ANALYST_TOOL names) (PDict [(PStr "message", message)])
    = Ok result ->
  exists out,
    parse_analyst_result result (Api.format_value message) = Ok (PDict out) /\
    Api.analyze_data session_post now names (Ok (PDict request))
    = Ok (obj [("success", PBool true);
               ("results", PDict out);
               ("message", message);
               ("tool_used", MCP_ANALYST_TOOL names);
               ("raw_mcp_response", result);
               ("timestamp", PStr now)], 200%Z).
Proof.
  intros message Ht Hcall.
  destruct (parse_analyst_result_returns result (Api.format_value message))
    as [out Hout].
  exists out. split; [exact Hout|].
  unfold Api.analyze_data, Api.analyze_data_body.
  cbn [bind]. rewrite get_default_field. fold message. cbn [bind].
  rewrite Ht. cbn [negb].
  rewrite Hcall. cbn [bind]. rewrite Hout. reflexivity.
Qed.

(** X20. A search that reaches a server answering with a status other than
    200 is replied to with a 500.  When the body text of the answer can be
    read, its 'error' is 'HTTP <status>: <body text>'; when reading the body
    text raises, its 'error' is the text of what the caller of the client
    sees of that exception ('Request failed: ...' for a
    [requests.RequestException]). *)
Theorem search_documents_reports_http_error (names : tool_names)
    (request : pydict) (resp : response) :
  let query := field "query" (PStr "") request in
  let limit := field "limit" (PInt 10) request in
  Py.truthy query = true ->
  session_post
    (rpc_payload "tools/call"
       (PDict [(PStr "name", MCP_SEARCH_TOOL names);
               (PStr "arguments",
                PDict [(PStr "query", query); (PStr "limit", limit)])]))
    = Ok resp ->
  status_code resp <> 200%Z ->
  Api.search_documents session_post now names (Ok (PDict request))
  = Ok (obj [("success", PBool false);
             ("error",
              PStr (match text resp with
                    | Ok body =>
                        "HTTP " ++ Str.of_Z (status_code resp) ++ ": " ++ body
                    | Raise e => str_exn (surfaced e)
                    end));
             ("timestamp", PStr now)], 500%Z).
Proof.
  intros query limit Ht Hpost Hs.
  unfold Api.search_documents, Api.search_documents_body.
  cbn [bind]. rewrite !get_default_field. fold query. fold limit. cbn [bind].
  rewrite Ht. cbn [negb].
  unfold call_tool. rewrite (@rpc_call_not_200 rt session_post _ _ resp Hpost Hs).
  destruct (text resp); reflexivity.
Qed.


Lemma search_document_of (d : pydict) :
  Api.search_document (PDict d) = Ok (document_of d).
Proof.
  unfold Api.search_document, document_of, chunk_of.
  cbn [Py.get_default bind].
  destruct (Py.dict_get "text" d); cbn [bind];
    destruct (Py.dict_get "CONTEXTUALIZED_CHUNK" d); reflexivity.
Qed.

Lemma search_documents_of (results : list pydict) :
  mapM Api.search_document (map PDict results) = Ok (map document_of results).
Proof.
  induction results as [|d results IH]; [reflexivity|].
  cbn [map mapM]. rewrite search_document_of. cbn [bind]. now rewrite IH.
Qed.

Lemma listed_documents_of (values : list pyval) :
  mapM (fun result_item =>
          if is_dict result_item then Api.search_document result_item
          else Ok (Api.plain_document result_item)) values
  = Ok (map listed_document values).
Proof.
  induction values as [|v values IH]; [reflexivity|].
  cbn [map mapM].
  destruct v; cbn [is_dict listed_document bind]; rewrite ?search_document_of;
    cbn [bind]; now rewrite IH.
Qed.

Lemma search_item_adds (item : pyval) (added : list pyval) :
  search_adds item added ->
  forall documents,
    Api.search_item documents item = Ok (Next (documents ++ added)%list).
Proof.
  intros [Hn | t detail [Ht Hg] Hj | t j results [Ht Hg] Hj Hr | t values [Ht Hg] Hj
          | t j [Ht Hg] Hj Hr | t v [Ht Hg] Hj Hd Hl] documents;
    unfold Api.search_item.
  - rewrite Hn. cbn [bind]. now rewrite app_nil_r.
  - rewrite Ht. cbn [bind]. rewrite Hg. cbn [bind].
    rewrite (loads_fails _ Hj). cbn [bind try_except is_JSONDecodeError].
    reflexivity.
  - rewrite Ht. cbn [bind]. rewrite Hg. cbn [bind].
    rewrite (loads_ok _ Hj). cbn [bind].
    unfold Api.search_results_documents. cbn [is_dict and_then bind].
    rewrite (contains_dict _ _ Hr). cbn [bind].
    rewrite (getitem_dict _ _ Hr). cbn [bind Py.iter].
    rewrite search_documents_of. reflexivity.
  - rewrite Ht. cbn [bind]. rewrite Hg. cbn [bind].
    rewrite (loads_ok _ Hj). cbn [bind].
    unfold Api.search_results_documents. cbn [is_dict and_then bind].
    rewrite listed_documents_of. reflexivity.
  - rewrite Ht. cbn [bind]. rewrite Hg. cbn [bind].
    rewrite (loads_ok _ Hj). cbn [bind].
    unfold Api.search_results_documents. cbn [is_dict and_then bind].
    rewrite (contains_dict_none _ _ Hr). reflexivity.
  - rewrite Ht. cbn [bind]. rewrite Hg. cbn [bind].
    rewrite (loads_ok _ Hj). cbn [bind].
    unfold Api.search_results_documents. rewrite Hd. cbn [and_then bind].
    destruct v; try discriminate; reflexivity.
Qed.

Lemma search_loop_adds (items : list pyval) (added : list (list pyval)) :
  Forall2 search_adds items added ->
  forall documents,
    for_each Api.search_item items documents
    = Ok (documents ++ List.concat added)%list.
Proof.
  induction 1 as [|item docs items added Hi _ IH]; intros documents.
  - simpl. now rewrite app_nil_r.
  - cbn [for_each]. rewrite (search_item_adds Hi). cbn [bind].
    rewrite IH. cbn [List.concat]. now rewrite app_assoc.
Qed.

(** X21. The documents of a search are those of the content items, in
    order: a text that is not JSON is one document of source
    'text_response'; a JSON object with a [results] list gives one document
    per result, showing its [CONTEXTUALIZED_CHUNK], else its [text], else
    the text of the result; a JSON list gives one document per element; any
    other JSON value gives one document with its text; an item that is not
    textual gives none. *)
Theorem search_documents_collects (names : tool_names) (request : pydict)
    (result : pyval) (items : list pyval) (added : list (list pyval)) :
  let query := field "query" (PStr "") request in
  let limit := field "limit" (PInt 10) request in
  Py.truthy query = true ->
  call_tool session_post (MCP_SEARCH_TOOL names)
    (PDict [(PStr "query", query); (PStr "limit", limit)]) = Ok result ->
  has_content result items ->
  Forall2 search_adds items added ->
  Api.search_documents session_post now names (Ok (PDict request))
  = Ok (obj [("success", PBool true);
             ("results", PList (List.concat added));
             ("query", query);
             ("tool_used", MCP_SEARCH_TOOL names);
             ("raw_mcp_response", result);
             ("timestamp", PStr now)], 200%Z).
Proof.
  intros query limit Ht Hcall Hc Ha.
  unfold Api.search_documents, Api.search_documents_body.
  cbn [bind]. rewrite !get_default_field. fold query. fold limit. cbn [bind].
  rewrite Ht. cbn [negb]. rewrite Hcall. cbn [bind].
  rewrite Hc. cbn [bind]. rewrite (search_loop_adds Ha). reflexivity.
Qed.

(** X24. Inside a [results] list every result must be a dictionary: one
    result that is not (a string, say) makes the search reply 500, although
    the same element in a bare JSON list would have become a document. *)
Theorem search_documents_needs_result_objects (names : tool_names)
    (request : pydict) (result item : pyval) (rest : list pyval) (t : string)
    (j : pydict) (good : list pydict) (bad : pyval) (more : list pyval) :
  let query := field "query" (PStr "") request in
  let limit := field "limit" (PInt 10) request in
  Py.truthy query = true ->
  call_tool session_post (MCP_SEARCH_TOOL names)
    (PDict [(PStr "query", query); (PStr "limit", limit)]) = Ok result ->
  has_content result (item :: rest) ->
  textual item t ->
  json_loads t = Ok (PDict j) ->
  Py.dict_get "results" j = Some (PList (map PDict good ++ bad :: more)) ->
  is_dict bad = false ->
  Api.search_documents session_post now names (Ok (PDict request))
  = Ok (obj [("success", PBool false);
             ("error", PStr (exn_text (AttributeError bad "get")));
             ("timestamp", PStr now)], 500%Z) /\
  listed_document bad = Api.plain_document bad.
Proof.
  intros query limit Ht Hcall Hc [Hi Hg] Hj Hr Hb.
  assert (Hbad : Api.search_document bad = Raise (AttributeError bad "get")).
  { destruct bad; try reflexivity. discriminate Hb. }
  assert (Hmap : mapM Api.search_document (map PDict good ++ bad :: more)
                 = Raise (AttributeError bad "get")).
  { clear Hr. induction good as [|d good IH].
    - cbn [map List.app mapM]. now rewrite Hbad.
    - cbn [map List.app mapM]. rewrite search_document_of. cbn [bind].
      now rewrite IH. }
  split.
  - unfold Api.search_documents, Api.search_documents_body.
    cbn [bind]. rewrite !get_default_field. fold query. fold limit. cbn [bind].
    rewrite Ht. cbn [negb]. rewrite Hcall. cbn [bind].
    rewrite Hc. cbn [bind for_each].
    unfold Api.search_item. rewrite Hi. cbn [bind]. rewrite Hg. cbn [bind].
    rewrite (loads_ok _ Hj). cbn [bind].
    unfold Api.search_results_documents. cbn [is_dict and_then bind].
    rewrite (contains_dict _ _ Hr). cbn [bind].
    rewrite (getitem_dict _ _ Hr). cbn [bind Py.iter].
    rewrite Hmap. reflexivity.
  - destruct bad; try reflexivity. discriminate Hb.
Qed.

(** X22. When the server cannot be reached (the post raises a
    [requests.RequestException]), [get_status] replies 500 with 'connected'
    false and the error 'Request failed: <its text>'. *)
Theorem get_status_when_unreachable (server_url detail : string) :
  session_post (rpc_payload "tools/list" PNone) = Raise (RequestException detail) ->
  Api.get_status session_post now server_url
  = Ok (obj [("connected", PBool false);
             ("error",
              PStr ("Request failed: " ++ exn_text (RequestException detail)));
             ("timestamp", PStr now)], 500%Z).
Proof.
  intros H. unfold Api.get_status, Api.get_status_body, list_tools, _make_rpc_call.
  rewrite H. reflexivity.
Qed.

(** X23. When the server answers the listing with a [result] object that
    has no [tools], the route [/api/tools] replies with an empty list and a
    count of 0, and [get_status] reports a connection with 0 tools. *)
Theorem listing_without_tools (server_url : string) (resp : response)
    (d r : pydict) :
  session_post (rpc_payload "tools/list" PNone) = Ok resp ->
  status_code resp = 200%Z ->
  parsed_object resp d ->
  Py.dict_get "result" d = Some (PDict r) ->
  Py.dict_get "tools" r = None ->
  Api.list_tools session_post now
  = Ok (obj [("success", PBool true);
             ("tools", PList []);
             ("count", PInt 0);
             ("timestamp", PStr now)], 200%Z) /\
  Api.get_status session_post now server_url
  = Ok (obj [("connected", PBool true);
             ("server_url", PStr server_url);
             ("tools_available", PInt 0);
             ("timestamp", PStr now)], 200%Z).
Proof.
  intros Hpost Hs Hd Hr Ht.
  assert (Hcall : list_tools session_post = Ok (PList [])).
  { unfold list_tools, _make_rpc_call. rewrite Hpost. cbn [bind].
    unfold handle_response. rewrite Hs. cbn [Z.eqb Pos.eqb].
    unfold parsed_object in Hd.
    destruct (Str.contains "text/event-stream" (content_type resp)).
    - rewrite Hd. cbn [bind].
      rewrite unwrap_escapes, unwrap_object, Hr.
      cbn [bind Py.get_default]. now rewrite Ht.
    - rewrite Hd. cbn [bind]. rewrite unwrap_escapes, unwrap_object, Hr.
      cbn [bind Py.get_default]. now rewrite Ht. }
  split.
  - unfold Api.list_tools, Api.list_tools_body. rewrite Hcall. reflexivity.
  - unfold Api.get_status, Api.get_status_body. rewrite Hcall. reflexivity.
Qed.

End RouteExtras.

(** ** The further properties on examples *)

Lemma post_failure_is_wrapped_witness :
  _make_rpc_call (rt := sample_runtime) unreachable "tools/list" PNone
  = Raise (PyException "Request failed: connection refused").
Proof.
  exact (@post_failure_is_wrapped sample_runtime unreachable "tools/list" PNone
           (RequestException "connection refused") eq_refl).
Defined.

Lemma invalid_json_body_is_request_failure_witness :
  _make_rpc_call (rt := sample_runtime) (answering html_response) "tools/list" PNone
  = Raise (PyException "Request failed: Expecting value").
Proof.
  exact (@invalid_json_body_is_request_failure sample_runtime
           (answering html_response) "tools/list" PNone html_response
           "Expecting value" eq_refl eq_refl eq_refl eq_refl).
Defined.

Lemma list_tools_default_witness :
  list_tools (rt := sample_runtime)
    (answering (json_response (obj [("result", obj [])])))
  = Ok (PList []).
Proof.
  exact (@list_tools_default sample_runtime
           (answering (json_response (obj [("result", obj [])])))
           (json_response (obj [("result", obj [])]))
           [(PStr "result", PDict [])] [] eq_refl eq_refl eq_refl eq_refl).
Defined.

Lemma data_line_needs_blank_witness :
  sse_line (rt := sample_runtime) PNone ("data:" ++ doc_tools) = Ok PNone.
Proof.
  exact (@data_line_needs_blank sample_runtime PNone doc_tools eq_refl).
Defined.

Lemma interpreters_without_content_witness :
  parse_sql_result (rt := sample_runtime) (obj [("isError", PBool false)]) "q"
  = Ok (sql_success "q" [] PNone).
Proof.
  refine (proj1 (@interpreters_without_content sample_runtime
                   (obj [("isError", PBool false)]) "q" _)).
  eexists. split; [reflexivity|]. left. reflexivity.
Defined.

Lemma parse_sql_result_plain_items_witness :
  parse_sql_result (rt := further_runtime)
    (tool_result [obj [("type", PStr "image")]; text_item "3 rows affected";
                  text_item doc_status]) "q"
  = Ok (sql_success "q"
          [obj [("result", PStr "3 rows affected")]; obj [("status", PStr "ok")]]
          PNone).
Proof.
  refine (@parse_sql_result_plain_items further_runtime
            (tool_result [obj [("type", PStr "image")]; text_item "3 rows affected";
                          text_item doc_status])
            [obj [("type", PStr "image")]; text_item "3 rows affected";
             text_item doc_status]
            [[]; [obj [("result", PStr "3 rows affected")]];
             [obj [("status", PStr "ok")]]] "q" eq_refl _).
  apply Forall2_cons; [|apply Forall2_cons; [|apply Forall2_cons; [|apply Forall2_nil]]].
  - apply sql_adds_nothing. reflexivity.
  - eapply sql_adds_text; [split|]; reflexivity.
  - apply (@sql_adds_object further_runtime _ doc_status
             [(PStr "status", PStr "ok")]); [split| |]; reflexivity.
Defined.

Lemma metadata_carries_over_witness :
  exists n,
    parse_sql_result (rt := sample_runtime)
      (tool_result [text_item doc_table; text_item doc_bare]) "q"
    = Ok (sql_success "q"
            [obj [("name", PStr "a"); ("val", PInt 1)];
             obj [("name", PStr "b"); ("val", PInt 2)];
             obj [("name", PStr "a"); ("val", PInt 1)]]
            (obj [("columns", PList [PStr "name"; PStr "val"]); ("num_rows", n)])).
Proof.
  refine (@metadata_carries_over sample_runtime
            (tool_result [text_item doc_table; text_item doc_bare])
            (text_item doc_table) (text_item doc_bare) doc_table doc_bare
            [(PStr "result_set",
              obj [("resultSetMetaData", two_columns);
                   ("data", PList [PList [PStr "a"; PInt 1];
                                   PList [PStr "b"; PInt 2]])])]
            [(PStr "resultSetMetaData", two_columns);
             (PStr "data", PList [PList [PStr "a"; PInt 1];
                                  PList [PStr "b"; PInt 2]])]
            [(PStr "result_set", obj [("data", PList [PList [PStr "a"; PInt 1]])])]
            [(PStr "data", PList [PList [PStr "a"; PInt 1]])]
            ["name"; "val"]
            [PList [PStr "a"; PInt 1]; PList [PStr "b"; PInt 2]]
            [PList [PStr "a"; PInt 1]] "q"
            eq_refl _ eq_refl eq_refl _ _ _ eq_refl eq_refl _).
  - split; reflexivity.
  - eexists; eexists. split; [reflexivity|]. split; [reflexivity|].
    split; [|reflexivity].
    repeat constructor; eexists; split; reflexivity.
  - discriminate.
  - split; reflexivity.
  - split; [left|]; reflexivity.
Defined.

Lemma empty_row_type_gives_synthetic_names_witness :
  exists n,
    parse_sql_result (rt := further_runtime)
      (tool_result [text_item doc_no_columns]) "q"
    = Ok (sql_success "q"
            [obj [("column_0", PStr "a"); ("column_1", PInt 1)]]
            (obj [("columns", PList []); ("num_rows", n)])).
Proof.
  refine (@empty_row_type_gives_synthetic_names further_runtime
            (tool_result [text_item doc_no_columns]) (text_item doc_no_columns)
            doc_no_columns
            [(PStr "result_set",
              obj [("resultSetMetaData", obj [("rowType", PList [])]);
                   ("data", PList [PList [PStr "a"; PInt 1]])])]
            [(PStr "resultSetMetaData", obj [("rowType", PList [])]);
             (PStr "data", PList [PList [PStr "a"; PInt 1]])]
            [PList [PStr "a"; PInt 1]] "q" eq_refl _ eq_refl eq_refl _).
  - split; reflexivity.
  - eexists; eexists. split; [reflexivity|]. split; [reflexivity|].
    split; [constructor|reflexivity].
Defined.

Lemma empty_statement_is_not_found_witness :
  exists d,
    parse_analyst_result (rt := sample_runtime)
      (tool_result [obj [("type", PStr "image")]]) "q" = Ok (PDict d) /\
    Py.dict_get "error" d = Some (PStr "No SQL statement found in response") /\
    Py.dict_get "sql_query" d = Some PNone.
Proof.
  eexists. split.
  - refine (@empty_statement_is_not_found sample_runtime
              (tool_result [obj [("type", PStr "image")]])
              [obj [("type", PStr "image")]] [Skipped] "q" PNone
              eq_refl _ eq_refl eq_refl).
    apply Forall2_cons; [|apply Forall2_nil].
    apply kind_other. reflexivity.
  - split; reflexivity.
Defined.

Lemma non_string_statement_is_an_error_witness :
  exists d,
    parse_analyst_result (rt := further_runtime)
      (tool_result [text_item doc_number_statement]) "q" = Ok (PDict d) /\
    Py.dict_get "error" d
      = Some (PStr (exn_text (Runtime := further_runtime)
                      (AttributeError (PInt 42) "strip"))) /\
    Py.dict_get "executed" d = Some (PBool false).
Proof.
  eexists. split.
  - refine (@non_string_statement_is_an_error further_runtime
              (tool_result [text_item doc_number_statement])
              [text_item doc_number_statement] [Statement (PInt 42)] "q" (PInt 42)
              eq_refl _ eq_refl eq_refl _).
    + apply Forall2_cons; [|apply Forall2_nil].
      apply (@kind_statement further_runtime _ doc_number_statement
               (obj [("statement", PInt 42)]) (PInt 42)); [split| | |]; reflexivity.
    + discriminate.
  - split; reflexivity.
Defined.

Lemma parse_agent_result_joins_texts_witness :
  parse_agent_result (rt := sample_runtime)
    (tool_result [text_item "hello"; obj [("type", PStr "image")]; text_item "world"])
    "hi"
  = Ok (obj [("type", PStr "agent_response");
             ("message", PStr "hi");
             ("response", PStr ("hello" ++ newline ++ "world"));
             ("execution_note", PStr "Response generated by SEC Filing Agent.")]).
Proof.
  refine (@parse_agent_result_joins_texts sample_runtime
            (tool_result [text_item "hello"; obj [("type", PStr "image")];
                          text_item "world"])
            [text_item "hello"; obj [("type", PStr "image")]; text_item "world"]
            ["hello" ++ newline; ""; "world" ++ newline] "hi" eq_refl _).
  apply Forall2_cons; [|apply Forall2_cons; [|apply Forall2_cons; [|apply Forall2_nil]]].
  - apply agent_adds_text. split; reflexivity.
  - apply agent_adds_nothing. reflexivity.
  - apply agent_adds_text. split; reflexivity.
Defined.

Lemma non_string_text_fails_interpretation_witness :
  exists d,
    parse_sql_result (rt := sample_runtime)
      (tool_result [obj [("type", PStr "text"); ("text", PInt 5)];
                    text_item doc_table]) "q" = Ok (PDict d) /\
    Py.dict_get "executed" d = Some (PBool false) /\
    Py.dict_get "execution_results" d = Some (PList []).
Proof.
  eexists. split.
  - refine (proj1 (@non_string_text_fails_interpretation sample_runtime
                     (tool_result [obj [("type", PStr "text"); ("text", PInt 5)];
                                   text_item doc_table])
                     (obj [("type", PStr "text"); ("text", PInt 5)])
                     [text_item doc_table] (PInt 5) "q" eq_refl eq_refl eq_refl _)).
    discriminate.
  - split; reflexivity.
Defined.

Lemma search_tool_described : describes search_tool search_tool_read.
Proof. repeat split. eexists. split; reflexivity. Qed.




(** A tool with a null description after a good one: nothing is kept. *)
Lemma non_string_description_aborts_discovery_witness :
  Api.discover_tools (rt := sample_runtime)
    (answering (listing [search_tool; nameless_tool; analyst_tool]))
    "2025-01-01T00:00:00" unbound_tool_names
  = (Ok (obj [("success", PBool false);
              ("error",
               PStr (exn_text (Runtime := sample_runtime)
                       (AttributeError PNone "lower")));
              ("capabilities", PDict no_capabilities);
              ("timestamp", PStr "2025-01-01T00:00:00")], 500%Z),
     unbound_tool_names).
Proof.
  refine (@non_string_description_aborts_discovery sample_runtime
            (answering (listing [search_tool; nameless_tool; analyst_tool]))
            "2025-01-01T00:00:00" unbound_tool_names
            [search_tool] [analyst_tool] [search_tool_read] nameless_tool
            (PStr "") PNone
            (schema_with ["message"]) [(PStr "message", obj [])]
            eq_refl _ eq_refl eq_refl _ eq_refl eq_refl eq_refl eq_refl).
  - apply Forall2_cons; [exact search_tool_described|apply Forall2_nil].
  - discriminate.
Defined.


(** An analysis whose answer holds no statement: a 200 with the error
    inside the results. *)
Lemma analyze_data_reports_interpretation_witness :
  exists out,
    Api.analyze_data (rt := sample_runtime)
      (answering (tool_answer [obj [("type", PStr "image")]]))
      "2025-01-01T00:00:00" unbound_tool_names
      (Ok (obj [("message", PStr "total revenue?")]))
    = Ok (obj [("success", PBool true);
               ("results", PDict out);
               ("message", PStr "total revenue?");
               ("tool_used", PNone);
               ("raw_mcp_response", tool_result [obj [("type", PStr "image")]]);
               ("timestamp", PStr "2025-01-01T00:00:00")], 200%Z) /\
    Py.dict_get "error" out = Some (PStr "No SQL statement found in response").
Proof.
  destruct (@analyze_data_reports_interpretation sample_runtime
              (answering (tool_answer [obj [("type", PStr "image")]]))
              "2025-01-01T00:00:00" unbound_tool_names
              [(PStr "message", PStr "total revenue?")]
              (tool_result [obj [("type", PStr "image")]]) eq_refl eq_refl)
    as [out [Hout Hreply]].
  exists out. split; [exact Hreply|].
  injection Hout as <-. reflexivity.
Defined.

Lemma search_documents_reports_http_error_witness :
  Api.search_documents (rt := sample_runtime) (answering timeout_response)
    "2025-01-01T00:00:00" unbound_tool_names (Ok (obj [("query", PStr "risk")]))
  = Ok (obj [("success", PBool false);
             ("error", PStr "HTTP 504: Gateway Time-out");
             ("timestamp", PStr "2025-01-01T00:00:00")], 500%Z) /\
  Api.search_documents (rt := sample_runtime) (answering (unreadable_response 504))
    "2025-01-01T00:00:00" unbound_tool_names (Ok (obj [("query", PStr "risk")]))
  = Ok (obj [("success", PBool false);
             ("error", PStr "Request failed: Connection broken");
             ("timestamp", PStr "2025-01-01T00:00:00")], 500%Z).
Proof.
  split.
  - refine (@search_documents_reports_http_error sample_runtime
              (answering timeout_response) "2025-01-01T00:00:00" unbound_tool_names
              [(PStr "query", PStr "risk")] timeout_response eq_refl eq_refl _).
    discriminate.
  - refine (@search_documents_reports_http_error sample_runtime
              (answering (unreadable_response 504)) "2025-01-01T00:00:00"
              unbound_tool_names
              [(PStr "query", PStr "risk")] (unreadable_response 504)
              eq_refl eq_refl _).
    discriminate.
Defined.

Lemma search_documents_collects_witness :
  Api.search_documents (rt := further_runtime)
    (answering (tool_answer [text_item doc_search; text_item "no match"]))
    "2025-01-01T00:00:00" unbound_tool_names (Ok (obj [("query", PStr "risk")]))
  = Ok (obj [("success", PBool true);
             ("results",
              PList [obj [("CONTEXTUALIZED_CHUNK", PStr "chunk one");
                          ("source", PStr "cortex_search");
                          ("metadata", obj [("CONTEXTUALIZED_CHUNK", PStr "chunk one")])];
                     obj [("CONTEXTUALIZED_CHUNK", PStr "plain two");
                          ("source", PStr "cortex_search");
                          ("metadata", obj [("text", PStr "plain two")])];
                     obj [("CONTEXTUALIZED_CHUNK", PStr "no match");
                          ("source", PStr "text_response")]]);
             ("query", PStr "risk");
             ("tool_used", PNone);
             ("raw_mcp_response",
              tool_result [text_item doc_search; text_item "no match"]);
             ("timestamp", PStr "2025-01-01T00:00:00")], 200%Z).
Proof.
  refine (@search_documents_collects further_runtime
            (answering (tool_answer [text_item doc_search; text_item "no match"]))
            "2025-01-01T00:00:00" unbound_tool_names
            [(PStr "query", PStr "risk")]
            (tool_result [text_item doc_search; text_item "no match"])
            [text_item doc_search; text_item "no match"]
            [map (document_of (rt := further_runtime))
               [[(PStr "CONTEXTUALIZED_CHUNK", PStr "chunk one")];
                [(PStr "text", PStr "plain two")]];
             [obj [("CONTEXTUALIZED_CHUNK", PStr "no match");
                   ("source", PStr "text_response")]]]
            eq_refl eq_refl eq_refl _).
  apply Forall2_cons; [|apply Forall2_cons; [|apply Forall2_nil]].
  - exact (@search_adds_results further_runtime (text_item doc_search) doc_search
             [(PStr "results",
               PList [obj [("CONTEXTUALIZED_CHUNK", PStr "chunk one")];
                      obj [("text", PStr "plain two")]])]
             [[(PStr "CONTEXTUALIZED_CHUNK", PStr "chunk one")];
              [(PStr "text", PStr "plain two")]]
             (conj eq_refl eq_refl) eq_refl eq_refl).
  - exact (@search_adds_text further_runtime (text_item "no match") "no match"
             "no match" (conj eq_refl eq_refl) eq_refl).
Defined.

Lemma get_status_when_unreachable_witness :
  Api.get_status (rt := sample_runtime) unreachable "2025-01-01T00:00:00"
    "https://example.test/mcp"
  = Ok (obj [("connected", PBool false);
             ("error", PStr "Request failed: connection refused");
             ("timestamp", PStr "2025-01-01T00:00:00")], 500%Z).
Proof.
  exact (@get_status_when_unreachable sample_runtime unreachable
           "2025-01-01T00:00:00" "https://example.test/mcp" "connection refused"
           eq_refl).
Defined.

Lemma listing_without_tools_witness :
  Api.list_tools (rt := sample_runtime)
    (answering (json_response (obj [("result", obj [])]))) "2025-01-01T00:00:00"
  = Ok (obj [("success", PBool true);
             ("tools", PList []);
             ("count", PInt 0);
             ("timestamp", PStr "2025-01-01T00:00:00")], 200%Z).
Proof.
  exact (proj1 (@listing_without_tools sample_runtime
                  (answering (json_response (obj [("result", obj [])])))
                  "2025-01-01T00:00:00" "https://example.test/mcp"
                  (json_response (obj [("result", obj [])]))
                  [(PStr "result", PDict [])] []
                  eq_refl eq_refl eq_refl eq_refl eq_refl)).
Defined.

Lemma search_documents_needs_result_objects_witness :
  Api.search_documents (rt := further_runtime)
    (answering (tool_answer [text_item doc_mixed_results]))
    "2025-01-01T00:00:00" unbound_tool_names (Ok (obj [("query", PStr "risk")]))
  = Ok (obj [("success", PBool false);
             ("error",
              PStr (exn_text (Runtime := further_runtime)
                      (AttributeError (PStr "loose text") "get")));
             ("timestamp", PStr "2025-01-01T00:00:00")], 500%Z).
Proof.
  refine (proj1 (@search_documents_needs_result_objects further_runtime
            (answering (tool_answer [text_item doc_mixed_results]))
            "2025-01-01T00:00:00" unbound_tool_names
            [(PStr "query", PStr "risk")]
            (tool_result [text_item doc_mixed_results])
            (text_item doc_mixed_results) [] doc_mixed_results
            [(PStr "results",
              PList [obj [("text", PStr "plain two")]; PStr "loose text"])]
            [[(PStr "text", PStr "plain two")]] (PStr "loose text") []
            eq_refl eq_refl eq_refl (conj eq_refl eq_refl) eq_refl eq_refl eq_refl)).
Defined.
